(** * ff_bookmarks: Firefox bookmark backups rendered as Netscape bookmark HTML

    A shallow embedding of [src/python/ff_bookmarks.py], and the
    properties of its renderer and loader.

    - Python values coming out of [json.loads] are the inductive [json];
      a [dict] is an association list read with [dict_get], and Python's
      [None] is [JNull].
    - A Python [str] is a [string]; its characters are code points (the
      model covers code points below 256).  A [float] is a binary64
      value of [spec_float]; the quotient of two [int]s is rounded to
      the nearest such value, as Python rounds it.
    - The output stream is write-only: a computation that writes is a
      pair of the chunks handed to [output.write], in order, and either
      a value or the exception that ended it ([W]).
    - The process ([main]) is a function on a [world] of files, standard
      output and standard error; [sys.exit] is the outcome [Exits].  The
      decompressor, the UTF-8 codec, the JSON parser, the texts
      [pathlib] gives for a path, and whether a path can be opened for
      writing are parameters.

    Left out of the model: the recursion limit of the interpreter (the
    tree walk recurses structurally on the tree), the limit on the
    number of digits [int()] and [str()] accept, and failures of
    reading other than a missing file (a file that exists can be
    read). *)

From Stdlib Require Import ZArith List String Ascii Bool Lia.
From Stdlib Require Import DecimalString.
From Stdlib Require Import Floats.SpecFloat.
Import ListNotations.
Open Scope string_scope.
Open Scope Z_scope.
Open Scope list_scope.

(* ================================================================== *)
(** ** Python values *)
(* ================================================================== *)

Module Py.

(** What [json.loads] returns. *)
#[warnings="-register-all"]
Inductive json : Type :=
| JNull
| JBool (b : bool)
| JInt (n : Z)
| JFloat (f : spec_float)
| JStr (s : string)
| JList (l : list json)
| JDict (d : list (string * json)).

Definition dict : Type := list (string * json).

(** The exceptions the program can raise or catch. *)
Inductive exn : Type :=
| AttributeError
| TypeError
| ValueError
| OverflowError
| ZeroDivisionError
| UnicodeDecodeError (msg : string)
| JSONDecodeError (msg : string)
| LZ4BlockError (msg : string)
| OSError (msg : string).

(** A Python expression: its value, or the exception it raises. *)
Inductive result (A : Type) : Type :=
| Ok (a : A)
| Raise (e : exn).
Arguments Ok {A} a.
Arguments Raise {A} e.

Definition rbind {A B} (r : result A) (k : A -> result B) : result B :=
  match r with
  | Ok a => k a
  | Raise e => Raise e
  end.

(** *** dict *)

Fixpoint lookup (d : dict) (k : string) : option json :=
  match d with
  | [] => None
  | (k', v) :: rest => if String.eqb k' k then Some v else lookup rest k
  end.

(** [k in d] *)
Definition dict_contains (d : dict) (k : string) : bool :=
  match lookup d k with Some _ => true | None => false end.

(** [d.get(k, default)] *)
Definition dict_get_default (d : dict) (k : string) (default : json) : json :=
  match lookup d k with Some v => v | None => default end.

(** [d.get(k)]: [None] when the key is absent. *)
Definition dict_get (d : dict) (k : string) : json :=
  dict_get_default d k JNull.

(** [d.get(k)] handing its result to the rest of the function.  The tree
    walk is written with it, so that what it reads out of a node is
    visibly a part of that node; [with_get_eq] relates it to [dict_get]. *)
Definition with_get {A : Type} (d : dict) (k : string) (rest : json -> A) : A :=
  (fix go (d : dict) : A :=
     match d with
     | [] => rest JNull
     | (k', v) :: d' => if String.eqb k' k then rest v else go d'
     end) d.

(** *** Truth value, equality, [isinstance] *)

(** [bool(v)], as [if v:] and [not v] read it. *)
Definition truthy (v : json) : bool :=
  match v with
  | JNull => false
  | JBool b => b
  | JInt n => negb (n =? 0)
  | JFloat (S754_zero _) => false
  | JFloat _ => true
  | JStr s => negb (String.eqb s "")
  | JList l => match l with [] => false | _ => true end
  | JDict d => match d with [] => false | _ => true end
  end.

(** The integer a float is equal to, if any. *)
Definition float_integer_value (f : spec_float) : option Z :=
  match f with
  | S754_zero _ => Some 0
  | S754_finite s m e =>
      let a := if s then Z.neg m else Z.pos m in
      if 0 <=? e then Some (Z.shiftl a e)
      else if Z.shiftl (Z.shiftr a (- e)) (- e) =? a
           then Some (Z.shiftr a (- e)) else None
  | _ => None
  end.

(** [v == n] for an [int] constant [n]: numbers compare by value,
    [True] and [False] are 1 and 0, and nothing else equals an int. *)
Definition eq_int (v : json) (n : Z) : bool :=
  match v with
  | JInt m => m =? n
  | JBool b => (if b then 1 else 0) =? n
  | JFloat f =>
      match float_integer_value f with Some m => m =? n | None => false end
  | _ => false
  end.

(** [v == s] for a [str] constant [s]. *)
Definition eq_str (v : json) (s : string) : bool :=
  match v with
  | JStr t => String.eqb t s
  | _ => false
  end.

(** *** int(), true division, math.floor, str() *)

Definition is_space (c : ascii) : bool :=
  let n := nat_of_ascii c in
  ((9 <=? n) && (n <=? 13) || (n =? 32) || (n =? 133) || (n =? 160))%nat.

Definition digit_value (c : ascii) : option Z :=
  let n := nat_of_ascii c in
  if ((48 <=? n) && (n <=? 57))%nat then Some (Z.of_nat n - 48) else None.

Fixpoint lstrip (s : string) : string :=
  match s with
  | String c r => if is_space c then lstrip r else s
  | EmptyString => s
  end.

Fixpoint all_space (s : string) : bool :=
  match s with
  | String c r => is_space c && all_space r
  | EmptyString => true
  end.

(** Digits with single underscores between them, then optional blanks.
    [acc] is the value read so far; [after_digit] says whether the
    previous character was a digit. *)
Fixpoint digits (s : string) (acc : Z) (after_digit : bool) : option Z :=
  match s with
  | EmptyString => if after_digit then Some acc else None
  | String c r =>
      match digit_value c with
      | Some v => digits r (10 * acc + v) true
      | None =>
          if after_digit then
            if Ascii.eqb c "_" then
              match r with
              | String c' _ =>
                  match digit_value c' with
                  | Some _ => digits r acc false
                  | None => None
                  end
              | EmptyString => None
              end
            else if all_space s then Some acc else None
          else None
      end
  end.

(** [int(s)] for a [str], base 10; [None] is [ValueError]. *)
Definition int_of_str (s : string) : option Z :=
  match lstrip s with
  | String "-" r => option_map Z.opp (digits r 0 false)
  | String "+" r => digits r 0 false
  | r => digits r 0 false
  end.

(** [int(v)] *)
Definition int (v : json) : result Z :=
  match v with
  | JBool b => Ok (if b then 1 else 0)
  | JInt n => Ok n
  | JFloat S754_nan => Raise ValueError
  | JFloat (S754_infinity _) => Raise OverflowError
  | JFloat (S754_zero _) => Ok 0
  | JFloat (S754_finite s m e) =>
      let a := if 0 <=? e then Z.shiftl (Z.pos m) e else Z.shiftr (Z.pos m) (- e) in
      Ok (if s then - a else a)
  | JStr s => match int_of_str s with Some n => Ok n | None => Raise ValueError end
  | JNull | JList _ | JDict _ => Raise TypeError
  end.

Definition prec : Z := 53.
Definition emax : Z := 1024.

Definition float_of_Z (a : Z) : spec_float :=
  match a with
  | Z0 => S754_zero false
  | Zpos p => S754_finite false p 0
  | Zneg p => S754_finite true p 0
  end.

(** [a / b] on two [int]s: the quotient rounded to the nearest binary64
    value, ties to even. *)
Definition truediv (a b : Z) : result spec_float :=
  if b =? 0 then Raise ZeroDivisionError
  else match SFdiv prec emax (float_of_Z a) (float_of_Z b) with
       | S754_infinity _ => Raise OverflowError
       | q => Ok q
       end.

(** [math.floor(x)] *)
Definition floor (x : spec_float) : result Z :=
  match x with
  | S754_nan => Raise ValueError
  | S754_infinity _ => Raise OverflowError
  | S754_zero _ => Ok 0
  | S754_finite s m e =>
      let a := if s then Z.neg m else Z.pos m in
      Ok (if 0 <=? e then Z.shiftl a e else Z.shiftr a (- e))
  end.

(** [str(n)] for an [int]. *)
Definition str (n : Z) : string := NilZero.string_of_int (Z.to_int n).

(** [s.replace(old, new)] for a one-character [old]. *)
Fixpoint replace (old : ascii) (new : string) (s : string) : string :=
  match s with
  | EmptyString => EmptyString
  | String c r =>
      if Ascii.eqb c old then new ++ replace old new r
      else String c (replace old new r)
  end.

(** [c * n] for a one-character string [c]. *)
Fixpoint repeat_char (c : ascii) (n : nat) : string :=
  match n with
  | O => EmptyString
  | S n' => String c (repeat_char c n')
  end.

End Py.
Import Py.

(* ================================================================== *)
(** ** Constants *)
(* ================================================================== *)

(** The bytes of [b"mozLz4"]. *)
Definition FIREFOX_LZ4_SIGNATURE : list Byte.byte :=
  [Byte.x6d; Byte.x6f; Byte.x7a; Byte.x4c; Byte.x7a; Byte.x34].
Definition FIREFOX_LZ4_HEADER_SIZE : nat := 12.
Definition DEFAULT_BUFFER_SIZE : Z := 10 * 1024 * 1024.
Definition INDENT_SIZE : nat := 4.
Definition BOOKMARK_SEPARATOR_TYPE : Z := 3.

(** The double quote and the line feed, as one-character strings. *)
Definition DQ : string := String "034" EmptyString.
Definition NL : string := String "010" EmptyString.

(* ================================================================== *)
(** ** The output stream *)
(* ================================================================== *)

(** A computation that writes to [output]: the chunks written, oldest
    first, and how it ended.  What was written before an exception
    stays written. *)
Definition W (A : Type) : Type := (list string * result A)%type.

Definition ret {A} (a : A) : W A := ([], Ok a).
Definition raise {A} (e : exn) : W A := ([], Raise e).
Definition lift {A} (r : result A) : W A := ([], r).
Definition write (s : string) : W unit := ([s], Ok tt).

Definition bind {A B} (m : W A) (k : A -> W B) : W B :=
  match m with
  | (w, Ok a) => let (w', r) := k a in (w ++ w', r)
  | (w, Raise e) => (w, Raise e)
  end.

Notation "x <- m ;; k" := (bind m (fun x => k))
  (at level 61, m at next level, right associativity).
Notation "m ;; k" := (bind m (fun _ => k))
  (at level 61, right associativity).

(** [for x in l: body(x)] *)
Definition for_each {A} (l : list A) (body : A -> W unit) : W unit :=
  (fix loop (l : list A) : W unit :=
     match l with
     | [] => ret tt
     | x :: l' => body x ;; loop l'
     end) l.

(** The text of the file once the stream is closed. *)
Definition file_text (chunks : list string) : string :=
  String.concat "" chunks.

(* ================================================================== *)
(** ** Shared utilities *)
(* ================================================================== *)

Definition html_escape (text : json) : result string :=
  if negb (truthy text) then Ok ""
  else match text with
       | JStr s =>
           Ok (replace "'" "&#x27;"
              (replace "034" "&quot;"
              (replace ">" "&gt;"
              (replace "<" "&lt;"
              (replace "&" "&amp;" s)))))
       | _ => Raise AttributeError
       end.

Definition write_indented (indent : nat) (text : string) : W unit :=
  let indentation := repeat_char " " (INDENT_SIZE * indent) in
  write (indentation ++ text ++ NL).

(** [except (ValueError, TypeError)]: the decode errors are subclasses
    of [ValueError]. *)
Definition is_ValueError_or_TypeError (e : exn) : bool :=
  match e with
  | ValueError | TypeError | UnicodeDecodeError _ | JSONDecodeError _ => true
  | _ => false
  end.

Definition convert_firefox_timestamp (timestamp : json) : result string :=
  let try_body : result (option string) :=
    if truthy timestamp then
      rbind (int timestamp) (fun n =>
      rbind (truediv n 1000000) (fun q =>
      rbind (floor q) (fun k =>
      Ok (Some (str k)))))
    else Ok None in
  match try_body with
  | Ok (Some s) => Ok s
  | Ok None => Ok ""
  | Raise e => if is_ValueError_or_TypeError e then Ok "" else Raise e
  end.

Definition format_date_attributes (data : dict) : result string :=
  rbind
    (if dict_contains data "dateAdded" then
       rbind (convert_firefox_timestamp (dict_get data "dateAdded")) (fun date_added =>
       Ok (if truthy (JStr date_added)
           then [(" ADD_DATE=" ++ DQ ++ date_added ++ DQ)%string] else []))
     else Ok []) (fun attributes1 =>
  rbind
    (if dict_contains data "lastModified" then
       rbind (convert_firefox_timestamp (dict_get data "lastModified")) (fun last_modified =>
       Ok (if truthy (JStr last_modified)
           then [(" LAST_MODIFIED=" ++ DQ ++ last_modified ++ DQ)%string] else []))
     else Ok []) (fun attributes2 =>
  Ok (String.concat "" (attributes1 ++ attributes2)))).

(* ================================================================== *)
(** ** The HTML renderer *)
(* ================================================================== *)

(** The header's text around the escaped title. *)
Definition header (title : string) : string :=
  "<!DOCTYPE NETSCAPE-Bookmark-file-1>" ++ NL ++
  "<!-- This is an automatically generated file." ++ NL ++
  "    It will be read and overwritten." ++ NL ++
  "    DO NOT EDIT! -->" ++ NL ++
  "<META HTTP-EQUIV=" ++ DQ ++ "Content-Type" ++ DQ ++
  " CONTENT=" ++ DQ ++ "text/html; charset=UTF-8" ++ DQ ++ ">" ++ NL ++
  "<TITLE>Bookmarks</TITLE>" ++ NL ++
  "<H1>" ++ title ++ "</H1>" ++ NL ++
  "<DL><p>".

Definition write_html_header (title : json) : W unit :=
  t <- lift (html_escape title) ;;
  write_indented 0 (header t).

Definition write_folder (data : dict) (indent : nat) : W unit :=
  title <- lift (html_escape (dict_get_default data "title" (JStr ""))) ;;
  date_attrs <- lift (format_date_attributes data) ;;
  write_indented indent ("<DT><H3" ++ date_attrs ++ ">" ++ title ++ "</H3>") ;;
  write_indented indent "<DL><p>".

(** One [<DD>] line per description annotation. *)
Definition write_description (indent : nat) (anno : json) : W unit :=
  match anno with
  | JDict a =>
      if eq_str (dict_get a "name") "bookmarkProperties/description" then
        description <- lift (html_escape (dict_get_default a "value" (JStr ""))) ;;
        write_indented indent ("<DD>" ++ description)
      else ret tt
  | _ => ret tt
  end.

Definition write_bookmark (data : dict) (indent : nat) : W unit :=
  let uri := dict_get_default data "uri" (JStr "") in
  title <- lift (html_escape (dict_get_default data "title" uri)) ;;
  date_attrs <- lift (format_date_attributes data) ;;
  href <- lift (html_escape uri) ;;
  write_indented indent
    ("<DT><A HREF=" ++ DQ ++ href ++ DQ ++ date_attrs ++ ">" ++ title ++ "</A>") ;;
  match dict_get data "annos" with
  | JList annos => for_each annos (write_description indent)
  | _ => ret tt
  end.

(** [child.get('typeCode') == BOOKMARK_SEPARATOR_TYPE]; only a dict has
    [get]. *)
Definition is_separator (child : json) : result bool :=
  match child with
  | JDict c => Ok (eq_int (dict_get c "typeCode") BOOKMARK_SEPARATOR_TYPE)
  | _ => Raise AttributeError
  end.

Fixpoint convert_bookmarks_to_html (data : json) (indent : nat) {struct data} : W unit :=
  match data with
  | JDict d =>
      with_get d "children" (fun children =>
      let uri := dict_get d "uri" in
      match children with
      | JList cs =>
          (if (indent =? 0)%nat
           then write_html_header (dict_get_default d "title" (JStr "Bookmarks Menu"))
           else write_folder d indent) ;;
          for_each cs (fun child =>
            skip <- lift (is_separator child) ;;
            if skip then ret tt
            else convert_bookmarks_to_html child (indent + 1)) ;;
          write_indented indent "</DL><p>"
      | _ =>
          match uri with
          | JNull => ret tt
          | _ => write_bookmark d indent
          end
      end)
  | _ => raise AttributeError
  end.

(* ================================================================== *)
(** ** The process: files, standard streams, exit *)
(* ================================================================== *)

(** Regular files by path, and what was written to the two standard
    streams, oldest first. *)
Record world : Type := {
  files : string -> option (list Byte.byte);
  stdout : list string;
  stderr : list string
}.

(** How a call ends: it returns, raises, or the process exits
    ([sys.exit], which no [except Exception] catches). *)
Inductive outcome (A : Type) : Type :=
| Returns (a : A)
| Raises (e : exn)
| Exits (code : Z).
Arguments Returns {A} a.
Arguments Raises {A} e.
Arguments Exits {A} code.

Definition P (A : Type) : Type := world -> world * outcome A.

Definition pret {A} (a : A) : P A := fun w => (w, Returns a).

Definition pbind {A B} (m : P A) (k : A -> P B) : P B :=
  fun w =>
    match m w with
    | (w', Returns a) => k a w'
    | (w', Raises e) => (w', Raises e)
    | (w', Exits c) => (w', Exits c)
    end.

(** [try: body / except Exception as e: handler(e)] *)
Definition try_except {A} (body : P A) (handler : exn -> P A) : P A :=
  fun w =>
    match body w with
    | (w', Raises e) => handler e w'
    | r => r
    end.

Notation "x <~ m ;; k" := (pbind m (fun x => k))
  (at level 61, m at next level, right associativity).
Notation "m ;;; k" := (pbind m (fun _ => k))
  (at level 61, right associativity).

(** [print(s)] *)
Definition print (s : string) : P unit :=
  fun w => ({| files := files w; stdout := stdout w ++ [(s ++ NL)%string];
               stderr := stderr w |}, Returns tt).

Definition is_file (path : string) : P bool :=
  fun w => (w, Returns (match files w path with Some _ => true | None => false end)).

Fixpoint bytes_eqb (a b : list Byte.byte) : bool :=
  match a, b with
  | [], [] => true
  | x :: a', y :: b' => Byte.eqb x y && bytes_eqb a' b'
  | _, _ => false
  end.

(** [open(filename, 'rb')] then [seek(offset)] and [read(size)] or
    [read()]; a missing file is the [OSError] Python words this way. *)
Definition no_such_file (filename : string) : exn :=
  OSError ("[Errno 2] No such file or directory: '" ++ filename ++ "'").

Definition read_bytes (filename : string) (offset : nat) (size : option nat)
  : P (list Byte.byte) :=
  fun w =>
    match files w filename with
    | None => (w, Raises (no_such_file filename))
    | Some content =>
        let rest := skipn offset content in
        (w, Returns (match size with Some n => firstn n rest | None => rest end))
    end.

Record arguments : Type := {
  input_file : string;
  output_file : option string
}.

Section Process.

(** The platform: the block decompressor, the codec, the JSON parser
    (each gives a value, or the text of the exception it raises), the
    program's name, [str(e)] of an exception,
    [str(pathlib.Path(p).with_suffix(".html"))], [str(pathlib.Path(p))],
    and what [open(p, "w")] does: [None] when it creates or empties the
    file, or the text of the [OSError] it raises (a directory that is
    missing, a path that is a directory or may not be written). *)
Variable lz4_block_decompress : list Byte.byte -> Z -> string + list Byte.byte.
Variable utf8_decode : list Byte.byte -> string + string.
Variable utf8_encode : string -> list Byte.byte.
Variable json_loads : string -> string + json.
Variable argv0 : string.
Variable exn_str : exn -> string.
Variable with_suffix_html : string -> string.
Variable path_str : string -> string.
Variable open_error : string -> option string.

(** [err(message)]; every caller passes a non-empty message, so the
    branch that reads the exception in flight is never taken. *)
Definition err {A} (message : string) : P A :=
  fun w => ({| files := files w; stdout := stdout w;
               stderr := stderr w ++ [(argv0 ++ ": " ++ message ++ NL)%string] |},
            Exits 1).

Definition is_valid_jsonlz4_file (filename : string) : P bool :=
  f <~ is_file filename ;;
  if negb f then pret false
  else
    try_except
      (file_header <~ read_bytes filename 0 (Some (List.length FIREFOX_LZ4_SIGNATURE)) ;;
       pret (bytes_eqb file_header FIREFOX_LZ4_SIGNATURE))
      (fun e => match e with OSError _ => pret false | _ => fun w => (w, Raises e) end).

(** [f.read()] of a file opened as UTF-8 text, then [json.loads]. *)
Definition json_load (filename : string) : P json :=
  raw <~ read_bytes filename 0 None ;;
  match utf8_decode raw with
  | inl msg => fun w => (w, Raises (UnicodeDecodeError msg))
  | inr text =>
      match json_loads text with
      | inl msg => fun w => (w, Raises (JSONDecodeError msg))
      | inr v => pret v
      end
  end.

Definition is_json_file (filename : string) : P bool :=
  f <~ is_file filename ;;
  if negb f then pret false
  else
    try_except
      (json_load filename ;;; pret true)
      (fun e => match e with
                | JSONDecodeError _ | OSError _ => pret false
                | _ => fun w => (w, Raises e)
                end).

(** What [decompress_jsonlz4] hands to the decompressor: the file from
    byte [FIREFOX_LZ4_HEADER_SIZE] on. *)
Definition compressed_data_of (filename : string) : P (list Byte.byte) :=
  read_bytes filename FIREFOX_LZ4_HEADER_SIZE None.

Definition decompress_jsonlz4 (filename : string) : P json :=
  try_except
    (compressed_data <~ compressed_data_of filename ;;
     match lz4_block_decompress compressed_data DEFAULT_BUFFER_SIZE with
     | inl msg => fun w => (w, Raises (LZ4BlockError msg))
     | inr decompressed_data =>
         match utf8_decode decompressed_data with
         | inl msg => fun w => (w, Raises (UnicodeDecodeError msg))
         | inr text =>
             match json_loads text with
             | inl msg => fun w => (w, Raises (JSONDecodeError msg))
             | inr v => pret v
             end
         end
     end)
    (fun e =>
       match e with
       | LZ4BlockError msg => err ("LZ4 decompression error: " ++ msg)
       | JSONDecodeError msg => err ("JSON parsing error: " ++ msg)
       | OSError msg => err ("File reading error: " ++ msg)
       | _ => fun w => (w, Raises e)
       end).

Definition load_json_file (filename : string) : P json :=
  try_except
    (json_load filename)
    (fun e =>
       match e with
       | JSONDecodeError msg | OSError msg => err ("Error loading JSON file: " ++ msg)
       | _ => fun w => (w, Raises e)
       end).

(** [with open(output_path, "w", encoding='utf-8') as output: ...]:
    when the file cannot be opened, [OSError] is raised and nothing is
    written; otherwise the file is created or emptied, the walk writes
    to it, and it is closed with what was written, also when the walk
    raises. *)
Definition write_html_file (output_path : string) (bookmark_data : json) : P unit :=
  fun w =>
    match open_error output_path with
    | Some msg => (w, Raises (OSError msg))
    | None =>
        let (chunks, r) := convert_bookmarks_to_html bookmark_data 0 in
        let w' := {| files := fun p => if String.eqb p output_path
                                       then Some (utf8_encode (file_text chunks))
                                       else files w p;
                     stdout := stdout w; stderr := stderr w |} in
        (w', match r with Ok _ => Returns tt | Raise e => Raises e end)
    end.

Definition main (args : arguments) : P unit :=
  exists_ <~ is_file (input_file args) ;;
  (if negb exists_
   then err ("Input file '" ++ input_file args ++ "' does not exist.")
   else pret tt) ;;;
  let output_path :=
    match output_file args with
    | Some o => if String.eqb o "" then with_suffix_html (input_file args)
                else path_str o
    | None => with_suffix_html (input_file args)
    end in
  try_except
    (lz4 <~ is_valid_jsonlz4_file (input_file args) ;;
     bookmark_data <~
       (if lz4 then
          print ("Processing Firefox jsonlz4 bookmark backup: " ++ input_file args) ;;;
          decompress_jsonlz4 (input_file args)
        else
          js <~ is_json_file (input_file args) ;;
          if js then
            print ("Processing JSON bookmark file: " ++ input_file args) ;;;
            load_json_file (input_file args)
          else
            err ("'" ++ input_file args ++
                 "' is not a valid Firefox bookmark backup file (.jsonlz4) or JSON file.")) ;;
     print "Converting bookmarks to HTML format..." ;;;
     write_html_file output_path bookmark_data ;;;
     print ("Successfully converted bookmarks to: " ++ output_path))
    (fun e => err ("Conversion failed: " ++ exn_str e)).

End Process.

(* ================================================================== *)
(** ** Vocabulary of the properties *)
(* ================================================================== *)

(** [isinstance(v, list)] *)
Definition is_list (v : json) : bool :=
  match v with JList _ => true | _ => false end.

(** [v is None] *)
Definition is_none (v : json) : bool :=
  match v with JNull => true | _ => false end.

(** A child the loop skips: a dict whose [typeCode] equals 3. *)
Definition separator (child : json) : bool :=
  match child with
  | JDict c => eq_int (dict_get c "typeCode") BOOKMARK_SEPARATOR_TYPE
  | _ => false
  end.

(** What a folder writes before its children: the document header at
    depth 0, the folder heading and the opening list tag below. *)
Definition open_folder (d : dict) (indent : nat) : W unit :=
  if (indent =? 0)%nat
  then write_html_header (dict_get_default d "title" (JStr "Bookmarks Menu"))
  else write_folder d indent.

(** The loop over a folder's children. *)
Definition convert_children (cs : list json) (indent : nat) : W unit :=
  for_each cs (fun child =>
    skip <- lift (is_separator child) ;;
    if skip then ret tt else convert_bookmarks_to_html child (indent + 1)).

(** Number of nodes of a value, for induction on trees. *)
Fixpoint size (t : json) : nat :=
  match t with
  | JList l => S ((fix sum (l : list json) : nat :=
                     match l with [] => O | x :: l' => (size x + sum l')%nat end) l)
  | JDict d => S ((fix sum (d : list (string * json)) : nat :=
                     match d with [] => O | kv :: d' => (size (snd kv) + sum d')%nat end) d)
  | _ => 1%nat
  end.

(** *** Reading the output *)

Fixpoint drop_spaces (s : string) : string :=
  match s with
  | String " " r => drop_spaces r
  | _ => s
  end.

(** A chunk that is an anchor line: blanks, then the opening of an
    [<A>] element in a [<DT>]. *)
Definition anchor_open : string := "<DT><A HREF=" ++ DQ.

Definition is_anchor (chunk : string) : bool :=
  prefix anchor_open (drop_spaces chunk).

(** An anchor line at the indentation of depth [indent]. *)
Definition is_anchor_at (indent : nat) (chunk : string) : bool :=
  prefix (repeat_char " " (INDENT_SIZE * indent) ++ anchor_open) chunk.

Definition anchors (chunks : list string) : list string :=
  filter is_anchor chunks.






(** *** Escaping, character by character *)

Definition entity (c : ascii) : string :=
  if Ascii.eqb c "&" then "&amp;"
  else if Ascii.eqb c "<" then "&lt;"
  else if Ascii.eqb c ">" then "&gt;"
  else if Ascii.eqb c "034" then "&quot;"
  else if Ascii.eqb c "'" then "&#x27;"
  else String c EmptyString.

Fixpoint escape_each (s : string) : string :=
  match s with
  | EmptyString => EmptyString
  | String c r => entity c ++ escape_each r
  end.

Fixpoint occurs (c : ascii) (s : string) : bool :=
  match s with
  | EmptyString => false
  | String c' r => Ascii.eqb c' c || occurs c r
  end.

(** Every ampersand of [s] opens one of the five entities. *)
Fixpoint ampersands_open_entities (s : string) : bool :=
  match s with
  | EmptyString => true
  | String c r =>
      (if Ascii.eqb c "&"
       then prefix "amp;" r || prefix "lt;" r || prefix "gt;" r
            || prefix "quot;" r || prefix "#x27;" r
       else true)
      && ampersands_open_entities r
  end.

(** *** The nodes the claims speak of *)

(** The nodes rendered as bookmarks, with their depth, in the order of
    the walk: no list of children, a [uri] that is not [None], reached
    from the root through children that are not separators. *)
Fixpoint bookmark_nodes (t : json) (depth : nat) {struct t} : list (dict * nat) :=
  match t with
  | JDict d =>
      with_get d "children" (fun children =>
      match children with
      | JList cs =>
          (fix each (cs : list json) : list (dict * nat) :=
             match cs with
             | [] => []
             | c :: cs' =>
                 if separator c then each cs'
                 else bookmark_nodes c (depth + 1) ++ each cs'
             end) cs
      | _ => if is_none (dict_get d "uri") then [] else [(d, depth)]
      end)
  | _ => []
  end.

(** The line [write_bookmark] writes first for a node, if it gets
    that far. *)
Definition anchor_line (node : dict * nat) : option string :=
  hd_error (fst (write_bookmark (fst node) (snd node))).

(** The nodes of claim C1 as worded: every node with a [uri] entry, in
    depth-first pre-order, separators and what is below them left out. *)
Fixpoint uri_nodes (t : json) {struct t} : list dict :=
  match t with
  | JDict d =>
      if separator t then []
      else
        (if dict_contains d "uri" then [d] else []) ++
        with_get d "children" (fun children =>
        match children with
        | JList cs =>
            (fix each (cs : list json) : list dict :=
               match cs with
               | [] => []
               | c :: cs' => uri_nodes c ++ each cs'
               end) cs
        | _ => []
        end)
  | _ => []
  end.


(** *** More vocabulary *)

(** The five replacements, in the order [html_escape] applies them. *)
Definition replace_all (s : string) : string :=
  replace "'" "&#x27;"
    (replace "034" "&quot;"
      (replace ">" "&gt;"
        (replace "<" "&lt;"
          (replace "&" "&amp;" s)))).

Definition bookmark_nodes_below (cs : list json) (depth : nat) : list (dict * nat) :=
  flat_map (fun c => if separator c then [] else bookmark_nodes c (depth + 1)) cs.



(** A chunk that starts with [n] blanks. *)
Definition indented (n : nat) (chunk : string) : bool :=
  prefix (repeat_char " " n) chunk.

(** A chunk that is the document header. *)
Definition is_header (chunk : string) : bool :=
  prefix "<!DOCTYPE NETSCAPE-Bookmark-file-1>" chunk.

(** *** Trees of the data model *)

(** An entry that is absent or a text. *)
Definition text_entry (d : dict) (k : string) : bool :=
  match lookup d k with
  | None | Some (JStr _) => true
  | Some _ => false
  end.

(** A timestamp that is absent or converts without an exception. *)
Definition date_entry (d : dict) (k : string) : bool :=
  match lookup d k with
  | None => true
  | Some v =>
      match convert_firefox_timestamp v with
      | Ok _ => true
      | Raise _ => false
      end
  end.

Definition annotation_ok (anno : json) : bool :=
  match anno with
  | JDict a => text_entry a "value"
  | _ => true
  end.

Definition annotations_ok (d : dict) : bool :=
  match dict_get d "annos" with
  | JList annos => forallb annotation_ok annos
  | _ => true
  end.

Definition fields_ok (d : dict) : bool :=
  text_entry d "title" && text_entry d "uri"
  && date_entry d "dateAdded" && date_entry d "lastModified"
  && annotations_ok d.

(** A tree of bookmark nodes: every node is a dict whose title, uri and
    description values are texts or absent, whose timestamps convert,
    and whose children, when a list, are such nodes. *)
Fixpoint well_formed (t : json) {struct t} : bool :=
  match t with
  | JDict d =>
      fields_ok d &&
      with_get d "children" (fun children =>
      match children with
      | JList cs =>
          (fix all (cs : list json) : bool :=
             match cs with
             | [] => true
             | c :: cs' => well_formed c && all cs'
             end) cs
      | _ => true
      end)
  | _ => false
  end.

(* ================================================================== *)
(** ** Sample inputs *)
(* ================================================================== *)

(** A folder that has a [uri], holding one bookmark. *)
Definition docs_folder : dict :=
  [("title", JStr "Docs"); ("uri", JStr "http://a");
   ("children", JList [JDict [("title", JStr "B"); ("uri", JStr "http://b")]])].

Definition docs_tree : json :=
  JDict [("title", JStr "Bookmarks Menu"); ("children", JList [JDict docs_folder])].

(** A tree with a bookmark, a separator, a folder and a node that is
    neither. *)
Definition sample_tree : json :=
  JDict
    [("title", JStr "Root");
     ("children",
      JList
        [JDict [("title", JStr "Exa<m>ple & co"); ("uri", JStr "https://example.com");
                ("dateAdded", JInt 1700000000000000);
                ("annos",
                 JList [JDict [("name", JStr "bookmarkProperties/description");
                               ("value", JStr "a 'desc'")]])];
         JDict [("typeCode", JInt 3); ("uri", JStr "http://skipped")];
         JDict [("title", JStr "Folder"); ("lastModified", JInt 5);
                ("children", JList [JDict [("uri", JStr "http://b")]])];
         JDict [("title", JStr "neither")]])].


(** A bookmark whose [children] is a number. *)
Definition odd_bookmark : dict :=
  [("title", JStr "Odd"); ("uri", JStr "http://odd"); ("children", JInt 5)].



(** A container whose compressed part is rubbish: the signature, the
    rest of the 12-byte header, and eight more bytes. *)
Definition corrupt_file : list Byte.byte :=
  FIREFOX_LZ4_SIGNATURE
  ++ [Byte.x30; Byte.x00; Byte.x10; Byte.x00; Byte.x00; Byte.x00]
  ++ [Byte.xa0; Byte.xa1; Byte.xa2; Byte.xa3; Byte.xa4; Byte.xa5; Byte.xa6; Byte.xa7].

Definition corrupt_world : world :=
  {| files := fun p => if String.eqb p "b.jsonlz4" then Some corrupt_file else None;
     stdout := [];
     stderr := [] |}.

(** A platform whose decompressor rejects every input. *)
Definition rejecting_lz4 (data : list Byte.byte) (size : Z) : string + list Byte.byte :=
  inl "corrupt input".

Definition no_utf8 (data : list Byte.byte) : string + string := inl "invalid start byte".

Definition no_json (text : string) : string + json := inl "Expecting value".

(* ================================================================== *)
(** ** Vocabulary of the further properties *)
(* ================================================================== *)

(** One of the five characters [html_escape] replaces. *)
Definition special (c : ascii) : bool :=
  Ascii.eqb c "&" || Ascii.eqb c "<" || Ascii.eqb c ">"
  || Ascii.eqb c "034" || Ascii.eqb c "'".

Fixpoint has_special (s : string) : bool :=
  match s with
  | EmptyString => false
  | String c r => special c || has_special r
  end.

(** An annotation [write_bookmark] writes a line for. *)
Definition is_description (anno : json) : bool :=
  match anno with
  | JDict a => eq_str (dict_get a "name") "bookmarkProperties/description"
  | _ => false
  end.

(** The line of a description whose value is a text or absent. *)
Definition description_line (indent : nat) (anno : json) : string :=
  match anno with
  | JDict a =>
      repeat_char " " (INDENT_SIZE * indent)
      ++ ("<DD>" ++ match lookup a "value" with
                    | Some (JStr s) => escape_each s
                    | _ => EmptyString
                    end)
      ++ NL
  | _ => EmptyString
  end.

(** Chunks that open and close a list: the header ends with the
    opening tag of the outermost list. *)
Definition opens_list (chunk : string) : bool :=
  is_header (drop_spaces chunk)
  || String.eqb (drop_spaces chunk) ("<DL><p>" ++ NL).

Definition closes_list (chunk : string) : bool :=
  String.eqb (drop_spaces chunk) ("</DL><p>" ++ NL).

(** A chunk written by [write_indented] at depth [indent] or deeper. *)
Definition line_at_least (indent : nat) (chunk : string) : Prop :=
  exists (depth : nat) (text : string),
    (indent <= depth)%nat
    /\ chunk = (repeat_char " " (INDENT_SIZE * depth) ++ text ++ NL)%string.

(** The path [main] writes to: the [-o] path when one is given and is
    not empty, the input path with the suffix [.html] otherwise. *)
Definition output_path_of (with_suffix_html path_str : string -> string)
           (args : arguments) : string :=
  match output_file args with
  | Some o => if String.eqb o "" then with_suffix_html (input_file args)
              else path_str o
  | None => with_suffix_html (input_file args)
  end.

(** What reading and parsing a file as JSON text comes to. *)
Definition parsed (utf8_decode : list Byte.byte -> string + string)
           (json_loads : string -> string + json) (content : list Byte.byte)
  : outcome json :=
  match utf8_decode content with
  | inl msg => Raises (UnicodeDecodeError msg)
  | inr text =>
      match json_loads text with
      | inl msg => Raises (JSONDecodeError msg)
      | inr v => Returns v
      end
  end.

(** A call that leaves the error stream alone unless it exits, and that
    exits with status 1 only, after one line that starts with the name
    of the program. *)
Definition exits_like_err (argv0 : string) {A : Type} (m : P A) : Prop :=
  forall w,
    match m w with
    | (w', Exits code) =>
        code = 1
        /\ exists message,
             stderr w' = stderr w ++ [(argv0 ++ ": " ++ message ++ NL)%string]
    | (w', _) => stderr w' = stderr w
    end.

(** The same of a call that, besides, never raises. *)
Definition ends_like_main (argv0 : string) {A : Type} (m : P A) : Prop :=
  forall w,
    match m w with
    | (w', Returns _) => stderr w' = stderr w
    | (w', Raises _) => False
    | (w', Exits code) =>
        code = 1
        /\ exists message,
             stderr w' = stderr w ++ [(argv0 ++ ": " ++ message ++ NL)%string]
    end.

(** A bookmark with two descriptions and an annotation of another
    name. *)
Definition annotated_bookmark : dict :=
  [("uri", JStr "u");
   ("annos",
    JList [JDict [("name", JStr "bookmarkProperties/description");
                  ("value", JStr "one")];
           JDict [("name", JStr "other"); ("value", JStr "no")];
           JDict [("name", JStr "bookmarkProperties/description")]])].

(** A root whose second child is a number. *)
Definition broken_tree : json :=
  JDict [("title", JStr "T");
         ("children", JList [JDict [("uri", JStr "http://a")]; JInt 1;
                             JDict [("uri", JStr "http://b")]])].

(** A platform for the examples: bytes are read as characters, and the
    texts that parse are the words sample, to [sample_tree], and broken,
    to [broken_tree], and the empty list. *)
Definition bytes_as_text (data : list Byte.byte) : string + string :=
  inr (string_of_list_byte data).

Definition sample_loads (text : string) : string + json :=
  if String.eqb text "sample" then inr sample_tree
  else if String.eqb text "[]" then inr (JList [])
  else if String.eqb text "broken" then inr broken_tree
  else inl "Expecting value".

Definition stored_lz4 (data : list Byte.byte) (size : Z) : string + list Byte.byte :=
  inr data.

Definition plain_world : world :=
  {| files := fun p =>
       if String.eqb p "b.json" then Some (list_byte_of_string "sample")
       else if String.eqb p "list.json" then Some (list_byte_of_string "[]")
       else if String.eqb p "broken.json" then Some (list_byte_of_string "broken")
       else if String.eqb p "junk.txt" then Some (list_byte_of_string "junk")
       else if String.eqb p "b.jsonlz4"
            then Some (list_byte_of_string "mozLz40.....sample")
       else None;
     stdout := [];
     stderr := [] |}.

(** Command lines and the rest of the platform for the examples. *)
Definition args_for (input : string) : arguments :=
  {| input_file := input; output_file := None |}.

(** [Path.with_suffix(".html")] on the file names of the examples,
    which have no directory part and do not start with a dot: the name
    up to its last dot, then the new suffix. *)
Fixpoint has_dot (s : string) : bool :=
  match s with
  | EmptyString => false
  | String c r => Ascii.eqb c "." || has_dot r
  end.

Fixpoint stem (s : string) : string :=
  match s with
  | EmptyString => EmptyString
  | String c r =>
      if Ascii.eqb c "." && negb (has_dot r) then EmptyString
      else String c (stem r)
  end.

Definition html_suffix (path : string) : string := stem path ++ ".html".

Definition show_exn (e : exn) : string :=
  match e with
  | OSError msg | UnicodeDecodeError msg | JSONDecodeError msg | LZ4BlockError msg => msg
  | _ => "error"
  end.

(** [str(pathlib.Path(p))] on the paths of the examples, which are
    written as pathlib prints them. *)
Definition as_written (p : string) : string := p.

(** Every file can be opened for writing; and all but the one the
    conversion of [b.json] would write. *)
Definition opens_all (p : string) : option string := None.

Definition b_html_refused (p : string) : option string :=
  if String.eqb p "b.html" then Some "[Errno 13] Permission denied: 'b.html'"
  else None.

Definition as_bytes (text : string) : list Byte.byte := list_byte_of_string text.

(** Texts of digits, and of digits after an optional minus sign. *)
Fixpoint only_digits (s : string) : bool :=
  match s with
  | EmptyString => true
  | String c r =>
      match digit_value c with Some _ => only_digits r | None => false end
  end.

Definition number_text (s : string) : bool :=
  match s with
  | String c r => if Ascii.eqb c "-" then only_digits r else only_digits s
  | EmptyString => true
  end.

(** One date attribute: nothing for an empty value. *)
Definition date_attribute (name value : string) : string :=
  if String.eqb value "" then EmptyString else name ++ DQ ++ value ++ DQ.

(** A node with a timestamp and with a date that is no number. *)
Definition dated_node : dict :=
  [("dateAdded", JInt 1700000000000000); ("lastModified", JStr "yesterday")].

(** A chunk that is the heading of a folder. *)
Definition is_heading (chunk : string) : bool :=
  prefix "<DT><H3" (drop_spaces chunk).

(** A [<DD>] line at the indentation of depth [indent]. *)
Definition is_description_at (indent : nat) (chunk : string) : bool :=
  prefix (repeat_char " " (INDENT_SIZE * indent) ++ "<DD>") chunk.

(** The closing list line of a folder, written when the loop over its
    children has ended without an exception. *)
Definition closing_after (indent : nat) (r : result unit) : list string :=
  match r with
  | Ok _ => [(repeat_char " " (INDENT_SIZE * indent) ++ "</DL><p>" ++ NL)%string]
  | Raise _ => []
  end.

(** A folder with a [uri] whose title is a number; a node whose [uri]
    is [None] and whose [children] is a number; a bookmark whose title
    is a number. *)
Definition numbered_folder : dict :=
  [("title", JInt 5); ("uri", JStr "http://a"); ("children", JList [])].

Definition null_uri_node : dict := [("uri", JNull); ("children", JInt 5)].

Definition numbered_bookmark : dict :=
  [("title", JInt 5); ("uri", JStr "http://odd"); ("children", JInt 5)].

(* ================================================================== *)
(** ** Basic facts *)
(* ================================================================== *)

Lemma with_get_eq (A : Type) (d : dict) (k : string) (rest : json -> A) :
  with_get d k rest = rest (dict_get d k).
Proof.
  unfold dict_get, dict_get_default.
  induction d as [| [k' v] d IH]; simpl.
  - reflexivity.
  - destruct (String.eqb k' k); [reflexivity | exact IH].
Qed.

(** The tree walk on a dict, read with [dict_get] as the source reads
    it with [data.get]. *)
Lemma convert_dict (d : dict) (indent : nat) :
  convert_bookmarks_to_html (JDict d) indent =
  match dict_get d "children" with
  | JList cs =>
      open_folder d indent ;;
      convert_children cs indent ;;
      write_indented indent "</DL><p>"
  | _ => if is_none (dict_get d "uri") then ret tt else write_bookmark d indent
  end.
Proof.
  cbn [convert_bookmarks_to_html].
  rewrite with_get_eq.
  destruct (dict_get d "children"); try reflexivity;
    destruct (dict_get d "uri"); reflexivity.
Qed.

Lemma convert_not_dict (t : json) (indent : nat) :
  (forall d, t <> JDict d) ->
  convert_bookmarks_to_html t indent = raise AttributeError.
Proof.
  intros H. destruct t; try reflexivity. contradiction (H d eq_refl).
Qed.

(** *** The writer *)

Lemma bind_ret_l (A B : Type) (a : A) (k : A -> W B) : bind (ret a) k = k a.
Proof. unfold bind, ret. destruct (k a). reflexivity. Qed.

Lemma for_each_cons (A : Type) (x : A) (l : list A) (body : A -> W unit) :
  for_each (x :: l) body = (body x ;; for_each l body).
Proof. reflexivity. Qed.

Lemma convert_children_cons (c : json) (cs : list json) (indent : nat) :
  convert_children (c :: cs) indent =
  ((skip <- lift (is_separator c) ;;
    if skip then ret tt else convert_bookmarks_to_html c (indent + 1)) ;;
   convert_children cs indent).
Proof. reflexivity. Qed.

(** A child is skipped or walked; a child that is no dict makes the
    loop raise where the walk of it would. *)
Lemma convert_child (c : json) (indent : nat) :
  (skip <- lift (is_separator c) ;;
   if skip then ret tt else convert_bookmarks_to_html c (indent + 1)) =
  if separator c then ret tt else convert_bookmarks_to_html c (indent + 1).
Proof.
  destruct c; try reflexivity.
  unfold is_separator, separator, lift.
  destruct (eq_int (dict_get d "typeCode") BOOKMARK_SEPARATOR_TYPE).
  - reflexivity.
  - unfold bind. destruct (convert_bookmarks_to_html (JDict d) (indent + 1)).
    reflexivity.
Qed.

(** *** Induction on trees *)

Lemma size_child (c : json) (cs : list json) : In c cs -> (size c < size (JList cs))%nat.
Proof.
  cbn [size]. induction cs as [| x cs IH]; intros H; [destruct H |].
  destruct H as [-> | H]; [lia |]. specialize (IH H). lia.
Qed.

Lemma size_lookup (d : dict) (k : string) (v : json) :
  lookup d k = Some v -> (size v < size (JDict d))%nat.
Proof.
  cbn [size]. induction d as [| [k' v'] d IH]; simpl; [discriminate |].
  destruct (String.eqb k' k).
  - intros [= ->]. lia.
  - intros H. specialize (IH H). lia.
Qed.

Lemma size_children (d : dict) (cs : list json) (c : json) :
  dict_get d "children" = JList cs -> In c cs -> (size c < size (JDict d))%nat.
Proof.
  unfold dict_get, dict_get_default. intros H Hc.
  destruct (lookup d "children") as [v |] eqn:E; [| discriminate].
  subst v. apply size_lookup in E. apply size_child in Hc. lia.
Qed.

(** To prove a property of every tree, assume it of the children of
    each folder. *)
Lemma tree_ind (Q : json -> Prop) :
  (forall t,
     (forall d cs c, t = JDict d -> dict_get d "children" = JList cs ->
                     In c cs -> Q c) -> Q t) ->
  forall t, Q t.
Proof.
  intros step t.
  remember (size t) as n eqn:En. revert t En.
  induction n as [n IH] using lt_wf_ind. intros t ->.
  apply step. intros d cs c -> Hcs Hc.
  apply (IH (size c)); [| reflexivity].
  eapply size_children; eassumption.
Qed.

(* ================================================================== *)
(** ** Escaping *)
(* ================================================================== *)

Lemma string_app_assoc (a b c : string) :
  (a ++ (b ++ c) = (a ++ b) ++ c)%string.
Proof.
  induction a as [| x a IH]; simpl; [reflexivity |].
  rewrite IH. reflexivity.
Qed.

Lemma replace_app (old : ascii) (new a b : string) :
  replace old new (a ++ b) = (replace old new a ++ replace old new b)%string.
Proof.
  induction a as [| c a IH]; simpl; [reflexivity |].
  destruct (Ascii.eqb c old); rewrite IH.
  - apply string_app_assoc.
  - reflexivity.
Qed.

Lemma replace_all_cons (c : ascii) (r : string) :
  replace_all (String c r) = (entity c ++ replace_all r)%string.
Proof.
  unfold replace_all, entity. cbn [replace].
  destruct (Ascii.eqb_spec c "&") as [-> | Hamp]; [reflexivity |].
  cbn [replace].
  destruct (Ascii.eqb_spec c "<") as [-> | Hlt]; [reflexivity |].
  cbn [replace].
  destruct (Ascii.eqb_spec c ">") as [-> | Hgt]; [reflexivity |].
  cbn [replace].
  destruct (Ascii.eqb_spec c "034") as [-> | Hdq]; [reflexivity |].
  cbn [replace].
  destruct (Ascii.eqb_spec c "'") as [-> | Hsq]; reflexivity.
Qed.

Lemma replace_all_escape_each (s : string) : replace_all s = escape_each s.
Proof.
  induction s as [| c r IH]; [reflexivity |].
  rewrite replace_all_cons, IH. reflexivity.
Qed.

Lemma html_escape_str (s : string) : html_escape (JStr s) = Ok (escape_each s).
Proof.
  unfold html_escape. cbn [truthy].
  destruct s as [| c r]; [reflexivity |].
  cbn [String.eqb negb]. fold (replace_all (String c r)).
  rewrite replace_all_escape_each. reflexivity.
Qed.

Lemma occurs_app (c : ascii) (a b : string) :
  occurs c (a ++ b) = occurs c a || occurs c b.
Proof.
  induction a as [| x a IH]; simpl; [reflexivity |].
  rewrite IH. apply orb_assoc.
Qed.

(** None of the four characters that have no entity of their own
    spelling is left in an escaped text. *)
Lemma occurs_entity (c x : ascii) :
  In c ["<"; ">"; "034"; "'"]%char -> occurs c (entity x) = false.
Proof.
  intros Hc. unfold entity.
  destruct (Ascii.eqb_spec x "&") as [-> | ?];
    [simpl in Hc; decompose [or] Hc; subst; try reflexivity; contradiction |].
  destruct (Ascii.eqb_spec x "<") as [-> | ?];
    [simpl in Hc; decompose [or] Hc; subst; try reflexivity; contradiction |].
  destruct (Ascii.eqb_spec x ">") as [-> | ?];
    [simpl in Hc; decompose [or] Hc; subst; try reflexivity; contradiction |].
  destruct (Ascii.eqb_spec x "034") as [-> | ?];
    [simpl in Hc; decompose [or] Hc; subst; try reflexivity; contradiction |].
  destruct (Ascii.eqb_spec x "'") as [-> | ?];
    [simpl in Hc; decompose [or] Hc; subst; try reflexivity; contradiction |].
  cbn [occurs]. rewrite orb_false_r.
  apply Ascii.eqb_neq. intros ->.
  simpl in Hc. decompose [or] Hc; subst; contradiction.
Qed.

Lemma occurs_escape_each (c : ascii) (s : string) :
  In c ["<"; ">"; "034"; "'"]%char -> occurs c (escape_each s) = false.
Proof.
  intros Hc. induction s as [| x r IH]; [reflexivity |].
  cbn [escape_each]. rewrite occurs_app, IH, (occurs_entity c x Hc). reflexivity.
Qed.

Lemma prefix_empty (s : string) : prefix EmptyString s = true.
Proof. destruct s; reflexivity. Qed.

Lemma ampersands_escape_each (s : string) :
  ampersands_open_entities (escape_each s) = true.
Proof.
  induction s as [| x r IH]; [reflexivity |].
  cbn [escape_each]. unfold entity.
  destruct (Ascii.eqb_spec x "&") as [-> | Hamp];
    [simpl; rewrite prefix_empty; exact IH |].
  destruct (Ascii.eqb_spec x "<") as [-> | ?];
    [simpl; rewrite prefix_empty, ?orb_true_r; exact IH |].
  destruct (Ascii.eqb_spec x ">") as [-> | ?];
    [simpl; rewrite prefix_empty, ?orb_true_r; exact IH |].
  destruct (Ascii.eqb_spec x "034") as [-> | ?];
    [simpl; rewrite prefix_empty, ?orb_true_r; exact IH |].
  destruct (Ascii.eqb_spec x "'") as [-> | ?];
    [simpl; rewrite prefix_empty, ?orb_true_r; exact IH |].
  cbn [append ampersands_open_entities].
  apply Ascii.eqb_neq in Hamp. rewrite Hamp. exact IH.
Qed.

(** C4.  [html_escape] replaces each of the five characters ampersand,
    less-than, greater-than, double quote and apostrophe by its entity
    and keeps every other character: the chain of replacements, the
    ampersand first, gives the text escaped character by character, so
    no entity is escaped twice.  The result holds none of the four other
    characters, each ampersand in it opens one of the five entities, and
    the empty text and [None] escape to the empty text. *)
Theorem html_escape_entities : forall s : string,
  html_escape (JStr s) = Ok (escape_each s)
  /\ occurs "<" (escape_each s) = false
  /\ occurs ">" (escape_each s) = false
  /\ occurs "034" (escape_each s) = false
  /\ occurs "'" (escape_each s) = false
  /\ ampersands_open_entities (escape_each s) = true
  /\ html_escape (JStr EmptyString) = Ok EmptyString
  /\ html_escape JNull = Ok EmptyString.
Proof.
  intros s.
  split; [apply html_escape_str |].
  repeat split;
    try (apply occurs_escape_each; simpl; tauto);
    try apply ampersands_escape_each.
Qed.

(* ================================================================== *)
(** ** Timestamps *)
(* ================================================================== *)

Example timestamp_seconds :
  convert_firefox_timestamp (JInt 1700000000000000) = Ok "1700000000".
Proof. vm_compute. reflexivity. Qed.

Example add_date_attribute :
  format_date_attributes [("dateAdded", JInt 1700000000000000)]
  = Ok (" ADD_DATE=" ++ DQ ++ "1700000000" ++ DQ)%string.
Proof. vm_compute. reflexivity. Qed.

(** A timestamp that is falsy gives no text, and so no attribute. *)
Lemma timestamp_falsy (v : json) :
  truthy v = false -> convert_firefox_timestamp v = Ok EmptyString.
Proof. intros H. unfold convert_firefox_timestamp. rewrite H. reflexivity. Qed.

(** So does one [int()] rejects with [ValueError] or [TypeError]. *)
Lemma timestamp_rejected (v : json) (e : exn) :
  int v = Raise e -> is_ValueError_or_TypeError e = true ->
  convert_firefox_timestamp v = Ok EmptyString.
Proof.
  intros H He. unfold convert_firefox_timestamp. rewrite H.
  destruct (truthy v); simpl; [rewrite He |]; reflexivity.
Qed.

Example timestamp_not_a_number :
  convert_firefox_timestamp (JStr "yesterday") = Ok EmptyString
  /\ convert_firefox_timestamp (JList [JInt 1700000000000000]) = Ok EmptyString
  /\ convert_firefox_timestamp JNull = Ok EmptyString
  /\ convert_firefox_timestamp (JInt 0) = Ok EmptyString.
Proof. repeat split; reflexivity. Qed.

Lemma no_date_entries (d : dict) :
  dict_contains d "dateAdded" = false ->
  dict_contains d "lastModified" = false ->
  format_date_attributes d = Ok EmptyString.
Proof.
  intros H1 H2. unfold format_date_attributes. rewrite H1, H2. reflexivity.
Qed.

(** C5.  [convert_firefox_timestamp] lets an exception escape: [int()]
    of an infinite float and the true division of an integer too large
    for a float raise [OverflowError], which the handler for
    [ValueError] and [TypeError] does not catch, so the walk of a tree
    holding such a timestamp stops with that exception.  And the seconds
    are the floor of a binary64 quotient, not of the exact one: for
    17179869184999999 microseconds the attribute reads 17179869185,
    where floor division by 1000000 gives 17179869184. *)
Theorem timestamp_overflow_escapes :
  convert_firefox_timestamp (JFloat (S754_infinity false)) = Raise OverflowError
  /\ convert_firefox_timestamp (JInt (10 ^ 400)) = Raise OverflowError
  /\ convert_bookmarks_to_html
       (JDict [("children",
                JList [JDict [("uri", JStr "http://x");
                              ("dateAdded", JFloat (S754_infinity false))]])]) 0
     = ([(header "Bookmarks Menu" ++ NL)%string], Raise OverflowError)
  /\ convert_firefox_timestamp (JInt 17179869184999999) = Ok "17179869185"
  /\ 17179869184999999 / 1000000 = 17179869184.
Proof. repeat split; vm_compute; reflexivity. Qed.

(* ================================================================== *)
(** ** What the writers write *)
(* ================================================================== *)

Lemma fst_bind (A B : Type) (m : W A) (k : A -> W B) :
  fst (bind m k) =
  fst m ++ match snd m with Ok a => fst (k a) | Raise _ => [] end.
Proof.
  destruct m as [w [a | e]]; simpl.
  - destruct (k a). reflexivity.
  - rewrite app_nil_r. reflexivity.
Qed.

Lemma snd_bind (A B : Type) (m : W A) (k : A -> W B) :
  snd (bind m k) =
  match snd m with Ok a => snd (k a) | Raise e => Raise e end.
Proof.
  destruct m as [w [a | e]]; simpl.
  - destruct (k a). reflexivity.
  - reflexivity.
Qed.

Lemma bind_ok (A B : Type) (m : W A) (k : A -> W B) (w : list string) (b : B) :
  bind m k = (w, Ok b) ->
  exists w1 a w2, m = (w1, Ok a) /\ k a = (w2, Ok b) /\ w = w1 ++ w2.
Proof.
  destruct m as [w1 [a | e]]; simpl; [| discriminate].
  destruct (k a) as [w2 r] eqn:E. intros [= <- ->].
  exists w1, a, w2. auto.
Qed.

Lemma bind_lift (A B : Type) (r : result A) (k : A -> W B) :
  bind (lift r) k = match r with Ok a => k a | Raise e => raise e end.
Proof.
  destruct r as [a | e]; [| reflexivity].
  unfold lift, bind. destruct (k a). reflexivity.
Qed.

Lemma write_indented_chunk (indent : nat) (text : string) :
  write_indented indent text =
  ([(repeat_char " " (INDENT_SIZE * indent) ++ text ++ NL)%string], Ok tt).
Proof. reflexivity. Qed.

Lemma anchors_app (a b : list string) : anchors (a ++ b) = anchors a ++ anchors b.
Proof. apply filter_app. Qed.

Lemma drop_spaces_indent (n : nat) (s : string) :
  drop_spaces (repeat_char " " n ++ s) = drop_spaces s.
Proof. induction n as [| n IH]; [reflexivity | exact IH]. Qed.

Lemma prefix_same (a b c : string) : prefix (a ++ b) (a ++ c) = prefix b c.
Proof.
  induction a as [| x a IH]; [reflexivity |].
  simpl. destruct (ascii_dec x x) as [_ | N]; [exact IH | contradiction].
Qed.

Lemma is_anchor_indent (n : nat) (text : string) :
  is_anchor (repeat_char " " n ++ text) = is_anchor text.
Proof. unfold is_anchor. rewrite drop_spaces_indent. reflexivity. Qed.

(** The line of a bookmark is an anchor. *)
Lemma is_anchor_anchor (rest tail : string) :
  is_anchor (("<DT><A HREF=" ++ DQ ++ rest) ++ tail) = true.
Proof. unfold is_anchor, anchor_open, DQ. simpl. apply prefix_empty. Qed.

Lemma anchors_write_indented_other (indent : nat) (text : string) :
  prefix anchor_open (drop_spaces (text ++ NL)) = false ->
  anchors (fst (write_indented indent text)) = [].
Proof.
  intros H. rewrite write_indented_chunk. cbn [fst anchors filter].
  unfold is_anchor. rewrite drop_spaces_indent, H. reflexivity.
Qed.

Lemma anchors_write_html_header (title : json) :
  anchors (fst (write_html_header title)) = [].
Proof.
  unfold write_html_header. rewrite bind_lift.
  destruct (html_escape title) as [t | e]; [| reflexivity].
  apply anchors_write_indented_other. reflexivity.
Qed.

Lemma anchors_write_folder (d : dict) (indent : nat) :
  anchors (fst (write_folder d indent)) = [].
Proof.
  unfold write_folder. rewrite bind_lift.
  destruct (html_escape _) as [t | e]; [| reflexivity].
  rewrite bind_lift.
  destruct (format_date_attributes d) as [a | e]; [| reflexivity].
  rewrite fst_bind, anchors_app.
  rewrite anchors_write_indented_other by reflexivity.
  cbn [snd write_indented write].
  rewrite anchors_write_indented_other by reflexivity.
  reflexivity.
Qed.

Lemma anchors_open_folder (d : dict) (indent : nat) :
  anchors (fst (open_folder d indent)) = [].
Proof.
  unfold open_folder. destruct (indent =? 0)%nat.
  - apply anchors_write_html_header.
  - apply anchors_write_folder.
Qed.

Lemma anchors_write_description (indent : nat) (anno : json) :
  anchors (fst (write_description indent anno)) = [].
Proof.
  destruct anno; try reflexivity.
  unfold write_description.
  destruct (eq_str _ _); [| reflexivity].
  rewrite bind_lift.
  destruct (html_escape _) as [t | e]; [| reflexivity].
  apply anchors_write_indented_other. reflexivity.
Qed.

Lemma anchors_descriptions (indent : nat) (annos : list json) :
  anchors (fst (for_each annos (write_description indent))) = [].
Proof.
  induction annos as [| a annos IH]; [reflexivity |].
  rewrite for_each_cons, fst_bind, anchors_app, anchors_write_description.
  destruct (snd (write_description indent a)); [exact IH | reflexivity].
Qed.

(** [write_bookmark] writes its anchor line first, and no other anchor. *)
Lemma anchors_write_bookmark (d : dict) (indent : nat) :
  anchors (fst (write_bookmark d indent)) =
  match anchor_line (d, indent) with Some line => [line] | None => [] end.
Proof.
  unfold anchor_line. cbn [fst snd]. unfold write_bookmark.
  rewrite bind_lift.
  destruct (html_escape (dict_get_default d "title" _)) as [title | e]; [| reflexivity].
  rewrite bind_lift.
  destruct (format_date_attributes d) as [attrs | e]; [| reflexivity].
  rewrite bind_lift.
  destruct (html_escape (dict_get_default d "uri" _)) as [href | e]; [| reflexivity].
  rewrite fst_bind, write_indented_chunk. cbn [fst snd hd_error app].
  cbn [anchors filter]. rewrite is_anchor_indent, is_anchor_anchor. f_equal.
  destruct (dict_get d "annos"); try reflexivity.
  apply anchors_descriptions.
Qed.

Lemma write_bookmark_ok (d : dict) (indent : nat) (w : list string) :
  write_bookmark d indent = (w, Ok tt) ->
  exists line, anchor_line (d, indent) = Some line /\ anchors w = [line].
Proof.
  intros H.
  pose proof (anchors_write_bookmark d indent) as A. rewrite H in A. cbn [fst] in A.
  unfold anchor_line in *. cbn [fst snd] in *. rewrite H in *. cbn [fst] in *.
  destruct w as [| line w']; [| exists line; auto].
  exfalso. revert H. unfold write_bookmark.
  rewrite bind_lift.
  destruct (html_escape (dict_get_default d "title" _)); [| discriminate].
  rewrite bind_lift.
  destruct (format_date_attributes d); [| discriminate].
  rewrite bind_lift.
  destruct (html_escape (dict_get_default d "uri" _)); [| discriminate].
  intros H. apply (f_equal fst) in H. rewrite fst_bind in H.
  rewrite write_indented_chunk in H. discriminate.
Qed.

(** *** The nodes rendered as bookmarks *)

Lemma bookmark_nodes_dict (d : dict) (depth : nat) :
  bookmark_nodes (JDict d) depth =
  match dict_get d "children" with
  | JList cs => bookmark_nodes_below cs depth
  | _ => if is_none (dict_get d "uri") then [] else [(d, depth)]
  end.
Proof.
  cbn [bookmark_nodes]. rewrite with_get_eq.
  destruct (dict_get d "children"); try reflexivity.
  unfold bookmark_nodes_below.
  induction l as [| c cs IH]; [reflexivity |].
  cbn [flat_map]. rewrite <- IH.
  destruct (separator c); reflexivity.
Qed.

Lemma anchors_children (cs : list json) (indent : nat) (w : list string) :
  (forall c, In c cs -> forall i w', convert_bookmarks_to_html c i = (w', Ok tt) ->
     map Some (anchors w') = map anchor_line (bookmark_nodes c i)) ->
  convert_children cs indent = (w, Ok tt) ->
  map Some (anchors w) = map anchor_line (bookmark_nodes_below cs indent).
Proof.
  revert w. induction cs as [| c cs IH]; intros w Hcs H.
  - injection H as <-. reflexivity.
  - rewrite convert_children_cons, convert_child in H.
    apply bind_ok in H. destruct H as (w1 & [] & w2 & H1 & H2 & ->).
    unfold bookmark_nodes_below. cbn [flat_map].
    rewrite anchors_app, !map_app.
    fold (bookmark_nodes_below cs indent).
    rewrite (IH w2); [| intros; eapply Hcs; [right |]; eassumption | exact H2].
    f_equal.
    destruct (separator c).
    + injection H1 as <-. reflexivity.
    + eapply Hcs; [left; reflexivity | exact H1].
Qed.

Lemma anchors_leaf (d : dict) (indent : nat) (w : list string) :
  (if is_none (dict_get d "uri") then ret tt else write_bookmark d indent)
  = (w, Ok tt) ->
  map Some (anchors w) =
  map anchor_line (if is_none (dict_get d "uri") then [] else [(d, indent)]).
Proof.
  destruct (is_none (dict_get d "uri")); intros H.
  - injection H as <-. reflexivity.
  - apply write_bookmark_ok in H. destruct H as (line & E1 & E2).
    cbn [map]. rewrite E1, E2. reflexivity.
Qed.

Lemma anchors_follow_walk_at (t : json) :
  forall indent w,
    convert_bookmarks_to_html t indent = (w, Ok tt) ->
    map Some (anchors w) = map anchor_line (bookmark_nodes t indent).
Proof.
  induction t as [t IH] using tree_ind. intros indent w H.
  destruct t; try discriminate.
  rewrite convert_dict in H. rewrite bookmark_nodes_dict.
  destruct (dict_get d "children") eqn:Ec; try (apply anchors_leaf; exact H).
  apply bind_ok in H. destruct H as (w1 & [] & w23 & H1 & H23 & ->).
  apply bind_ok in H23. destruct H23 as (w2 & [] & w3 & H2 & H3 & ->).
  rewrite !anchors_app.
  pose proof (anchors_open_folder d indent) as A1. rewrite H1 in A1. cbn [fst] in A1.
  pose proof (anchors_write_indented_other indent "</DL><p>" eq_refl) as A3.
  rewrite H3 in A3. cbn [fst] in A3.
  rewrite A1, A3, app_nil_r. cbn [app].
  apply anchors_children; [| exact H2].
  intros c Hc. apply (IH d l c eq_refl Ec Hc).
Qed.

Lemma anchor_line_text (d : dict) (indent : nat) (line : string) :
  anchor_line (d, indent) = Some line ->
  exists title attrs href,
    html_escape (dict_get_default d "title" (dict_get_default d "uri" (JStr EmptyString)))
      = Ok title
    /\ format_date_attributes d = Ok attrs
    /\ html_escape (dict_get_default d "uri" (JStr EmptyString)) = Ok href
    /\ line = (repeat_char " " (INDENT_SIZE * indent)
               ++ ("<DT><A HREF=" ++ DQ ++ href ++ DQ ++ attrs ++ ">" ++ title ++ "</A>")
               ++ NL)%string.
Proof.
  unfold anchor_line. cbn [fst snd]. unfold write_bookmark.
  rewrite bind_lift.
  destruct (html_escape (dict_get_default d "title" _)) as [title | e]; [| discriminate].
  rewrite bind_lift.
  destruct (format_date_attributes d) as [attrs | e]; [| discriminate].
  rewrite bind_lift.
  destruct (html_escape (dict_get_default d "uri" _)) as [href | e]; [| discriminate].
  rewrite fst_bind, write_indented_chunk. cbn [fst hd_error app].
  intros [= <-]. exists title, attrs, href. auto.
Qed.

(* ================================================================== *)
(** ** Trees of the data model are rendered to the end *)
(* ================================================================== *)

Lemma well_formed_dict (d : dict) :
  well_formed (JDict d) =
  fields_ok d &&
  match dict_get d "children" with
  | JList cs => forallb well_formed cs
  | _ => true
  end.
Proof.
  cbn [well_formed]. rewrite with_get_eq. reflexivity.
Qed.

Lemma html_escape_text_entry (d : dict) (k s0 : string) :
  text_entry d k = true ->
  exists t, html_escape (dict_get_default d k (JStr s0)) = Ok t.
Proof.
  unfold text_entry, dict_get_default.
  destruct (lookup d k) as [[] |]; try discriminate; intros _;
    eexists; apply html_escape_str.
Qed.

Lemma date_entry_converts (d : dict) (k : string) :
  date_entry d k = true ->
  dict_contains d k = true ->
  exists t, convert_firefox_timestamp (dict_get d k) = Ok t.
Proof.
  unfold date_entry, dict_contains, dict_get, dict_get_default.
  destruct (lookup d k) as [v |]; [| discriminate].
  destruct (convert_firefox_timestamp v) as [t | e]; [| discriminate].
  intros _ _. exists t. reflexivity.
Qed.

Lemma format_date_attributes_ok (d : dict) :
  date_entry d "dateAdded" = true ->
  date_entry d "lastModified" = true ->
  exists a, format_date_attributes d = Ok a.
Proof.
  intros H1 H2. unfold format_date_attributes.
  destruct (dict_contains d "dateAdded") eqn:C1;
    [destruct (date_entry_converts d "dateAdded" H1 C1) as [t1 ->] |];
    (destruct (dict_contains d "lastModified") eqn:C2;
     [destruct (date_entry_converts d "lastModified" H2 C2) as [t2 ->] |]);
    cbn [rbind]; eexists; reflexivity.
Qed.

Lemma fields_ok_parts (d : dict) :
  fields_ok d = true ->
  text_entry d "title" = true /\ text_entry d "uri" = true
  /\ date_entry d "dateAdded" = true /\ date_entry d "lastModified" = true
  /\ annotations_ok d = true.
Proof.
  unfold fields_ok. rewrite !andb_true_iff. tauto.
Qed.

Lemma open_folder_ends (d : dict) (indent : nat) :
  fields_ok d = true -> snd (open_folder d indent) = Ok tt.
Proof.
  intros H. apply fields_ok_parts in H. destruct H as (Ht & _ & H1 & H2 & _).
  destruct (format_date_attributes_ok d H1 H2) as [a Ha].
  unfold open_folder, write_html_header, write_folder.
  destruct (indent =? 0)%nat.
  - destruct (html_escape_text_entry d "title" "Bookmarks Menu" Ht) as [t ->].
    reflexivity.
  - destruct (html_escape_text_entry d "title" EmptyString Ht) as [t ->].
    rewrite Ha. reflexivity.
Qed.

Lemma descriptions_end (indent : nat) (annos : list json) :
  forallb annotation_ok annos = true ->
  snd (for_each annos (write_description indent)) = Ok tt.
Proof.
  induction annos as [| x annos IH]; [reflexivity |].
  cbn [forallb]. rewrite andb_true_iff. intros [Hx Hr].
  rewrite for_each_cons, snd_bind.
  assert (E : snd (write_description indent x) = Ok tt).
  { destruct x; try reflexivity.
    unfold write_description. destruct (eq_str _ _); [| reflexivity].
    destruct (html_escape_text_entry d "value" EmptyString Hx) as [t ->].
    reflexivity. }
  rewrite E. apply IH. exact Hr.
Qed.

Lemma write_bookmark_ends (d : dict) (indent : nat) :
  fields_ok d = true -> snd (write_bookmark d indent) = Ok tt.
Proof.
  intros H. apply fields_ok_parts in H. destruct H as (Ht & Hu & H1 & H2 & Han).
  destruct (format_date_attributes_ok d H1 H2) as [a Ha].
  destruct (html_escape_text_entry d "uri" EmptyString Hu) as [h Hh].
  assert (Htitle : exists t,
             html_escape (dict_get_default d "title"
                            (dict_get_default d "uri" (JStr EmptyString))) = Ok t).
  { unfold text_entry in Ht, Hu. unfold dict_get_default.
    destruct (lookup d "title") as [[] |]; try discriminate;
      [eexists; apply html_escape_str |].
    destruct (lookup d "uri") as [[] |]; try discriminate;
      eexists; apply html_escape_str. }
  destruct Htitle as [t Htt].
  unfold write_bookmark. rewrite Htt, bind_lift, Ha, bind_lift, Hh, bind_lift.
  rewrite snd_bind, write_indented_chunk. cbn [snd].
  unfold annotations_ok in Han.
  destruct (dict_get d "annos"); try reflexivity.
  apply descriptions_end. exact Han.
Qed.

(** The walk of a tree of the data model raises nothing. *)
Lemma well_formed_renders (t : json) :
  forall indent,
    well_formed t = true -> snd (convert_bookmarks_to_html t indent) = Ok tt.
Proof.
  induction t as [t IH] using tree_ind. intros indent H.
  destruct t; try discriminate.
  rewrite well_formed_dict, andb_true_iff in H. destruct H as [Hf Hc].
  rewrite convert_dict.
  destruct (dict_get d "children") eqn:Ec;
    try (destruct (is_none (dict_get d "uri"));
         [reflexivity | apply write_bookmark_ends; exact Hf]).
  rewrite snd_bind, (open_folder_ends d indent Hf), snd_bind.
  assert (E : snd (convert_children l indent) = Ok tt).
  { assert (Hl : forall c, In c l -> forall i,
               well_formed c = true -> snd (convert_bookmarks_to_html c i) = Ok tt)
      by (intros c Hin; apply (IH d l c eq_refl Ec Hin)).
    clear IH Ec. induction l as [| c cs IHc]; [reflexivity |].
    cbn [forallb] in Hc. rewrite andb_true_iff in Hc. destruct Hc as [Hw Hr].
    rewrite convert_children_cons, convert_child, snd_bind.
    assert (Hcs : snd (convert_children cs indent) = Ok tt)
      by (apply IHc; [exact Hr | intros; apply Hl; [right |]; assumption]).
    destruct (separator c); [exact Hcs |].
    rewrite (Hl c (or_introl eq_refl) (indent + 1)%nat Hw). exact Hcs. }
  rewrite E. reflexivity.
Qed.

(* ================================================================== *)
(** ** C1: bookmarks and anchors *)
(* ================================================================== *)

(** Against C1 as worded.  In [docs_tree] two nodes that are no
    separators have a [uri], the folder Docs and the bookmark B below
    it; the walk ends without an exception and writes one anchor, for B
    only. *)
Lemma folder_with_uri_has_no_anchor :
  List.length (uri_nodes docs_tree) = 2%nat
  /\ hd_error (uri_nodes docs_tree) = Some docs_folder
  /\ snd (convert_bookmarks_to_html docs_tree 0) = Ok tt
  /\ anchors (fst (convert_bookmarks_to_html docs_tree 0))
     = [("        <DT><A HREF=" ++ DQ ++ "http://b" ++ DQ ++ ">B</A>" ++ NL)%string].
Proof. repeat split; vm_compute; reflexivity. Qed.

(** C1, amended.  The walk of a tree of the data model ends without an
    exception; and whenever the walk of a tree ends without one, the
    anchor lines of the output are, one for one and in the same order,
    the lines of the nodes rendered as bookmarks ([bookmark_nodes]: the
    nodes with a [uri] that is not [None] and no list of children, that
    the walk reaches through children that are not separators, in
    depth-first pre-order); each such line is the node's anchor, with
    its escaped [uri] and title. *)
Theorem anchors_follow_walk : forall (t : json),
  (well_formed t = true -> snd (convert_bookmarks_to_html t 0) = Ok tt)
  /\ forall w : list string,
       convert_bookmarks_to_html t 0 = (w, Ok tt) ->
       map Some (anchors w) = map anchor_line (bookmark_nodes t 0)
       /\ List.length (anchors w) = List.length (bookmark_nodes t 0)
       /\ forall node line,
            In node (bookmark_nodes t 0) -> anchor_line node = Some line ->
            exists title attrs href,
              html_escape (dict_get_default (fst node) "title"
                             (dict_get_default (fst node) "uri" (JStr EmptyString)))
                = Ok title
              /\ format_date_attributes (fst node) = Ok attrs
              /\ html_escape (dict_get_default (fst node) "uri" (JStr EmptyString))
                 = Ok href
              /\ line = (repeat_char " " (INDENT_SIZE * snd node)
                         ++ ("<DT><A HREF=" ++ DQ ++ href ++ DQ ++ attrs ++ ">"
                             ++ title ++ "</A>")
                         ++ NL)%string.
Proof.
  intros t. split; [apply well_formed_renders |].
  intros w H.
  pose proof (anchors_follow_walk_at t 0%nat w H) as E.
  split; [exact E |]. split.
  - apply (f_equal (@List.length _)) in E. rewrite !length_map in E. exact E.
  - intros [d i] line _ Hl. apply anchor_line_text. exact Hl.
Qed.

Lemma anchors_follow_walk_witness :
  well_formed sample_tree = true
  /\ snd (convert_bookmarks_to_html sample_tree 0) = Ok tt
  /\ map Some (anchors (fst (convert_bookmarks_to_html sample_tree 0)))
     = map anchor_line (bookmark_nodes sample_tree 0).
Proof.
  split; [vm_compute; reflexivity |].
  split; [apply (proj1 (anchors_follow_walk sample_tree)); vm_compute; reflexivity |].
  apply (proj2 (anchors_follow_walk sample_tree)
               (fst (convert_bookmarks_to_html sample_tree 0))).
  vm_compute; reflexivity.
Defined.

(* ================================================================== *)
(** ** C3: separators *)
(* ================================================================== *)
















(* ================================================================== *)
(** ** Folders: where anchors cannot be, and what opens a folder *)
(* ================================================================== *)

Lemma prefix_app (a b : string) : prefix a (a ++ b) = true.
Proof.
  induction a as [| x a IH]; [apply prefix_empty |].
  simpl. destruct (ascii_dec x x) as [_ | N]; [exact IH | contradiction].
Qed.

Lemma indented_weaken (n m : nat) (c : string) :
  indented (n + m) c = true -> indented n c = true.
Proof.
  unfold indented. revert c. induction n as [| n IH]; intros c H.
  - apply prefix_empty.
  - destruct c as [| x c]; [discriminate |].
    cbn [repeat_char Nat.add prefix] in *.
    destruct (ascii_dec " " x); [apply IH; exact H | discriminate].
Qed.

Lemma indented_write_indented (indent : nat) (text : string) :
  Forall (fun c => indented (INDENT_SIZE * indent) c = true)
         (fst (write_indented indent text)).
Proof.
  rewrite write_indented_chunk. constructor; [| constructor].
  apply prefix_app.
Qed.

Lemma Forall_fst_bind (A B : Type) (Q : string -> Prop) (m : W A) (k : A -> W B) :
  Forall Q (fst m) -> (forall a, Forall Q (fst (k a))) -> Forall Q (fst (bind m k)).
Proof.
  intros Hm Hk. rewrite fst_bind. apply Forall_app. split; [exact Hm |].
  destruct (snd m); [apply Hk | constructor].
Qed.

Lemma Forall_fst_lift (A B : Type) (Q : string -> Prop) (r : result A) (k : A -> W B) :
  (forall a, Forall Q (fst (k a))) -> Forall Q (fst (bind (lift r) k)).
Proof.
  intros Hk. rewrite bind_lift. destruct r; [apply Hk | constructor].
Qed.

Lemma indented_open_folder (d : dict) (indent : nat) :
  Forall (fun c => indented (INDENT_SIZE * indent) c = true)
         (fst (open_folder d indent)).
Proof.
  unfold open_folder. destruct indent as [| n]; cbn [Nat.eqb].
  - unfold write_html_header. apply Forall_fst_lift. intros t.
    apply indented_write_indented.
  - unfold write_folder.
    apply Forall_fst_lift. intros t. apply Forall_fst_lift. intros a.
    apply Forall_fst_bind; intros; apply indented_write_indented.
Qed.

Lemma indented_write_bookmark (d : dict) (indent : nat) :
  Forall (fun c => indented (INDENT_SIZE * indent) c = true)
         (fst (write_bookmark d indent)).
Proof.
  unfold write_bookmark.
  apply Forall_fst_lift. intros t. apply Forall_fst_lift. intros a.
  apply Forall_fst_lift. intros h.
  apply Forall_fst_bind; [apply indented_write_indented |]. intros _.
  destruct (dict_get d "annos"); try constructor.
  induction l as [| x l IH]; [constructor |].
  rewrite for_each_cons. apply Forall_fst_bind; [| intros _; exact IH].
  destruct x; try constructor.
  unfold write_description. destruct (eq_str _ _); [| constructor].
  apply Forall_fst_lift. intros t'. apply indented_write_indented.
Qed.

(** Every chunk the walk writes at depth [indent] starts with the
    blanks of that depth. *)
Lemma indented_convert (t : json) :
  forall indent,
    Forall (fun c => indented (INDENT_SIZE * indent) c = true)
           (fst (convert_bookmarks_to_html t indent)).
Proof.
  induction t as [t IH] using tree_ind. intros indent.
  destruct t; try constructor.
  rewrite convert_dict.
  destruct (dict_get d "children") eqn:Ec;
    try (destruct (is_none (dict_get d "uri"));
         [constructor | apply indented_write_bookmark]).
  apply Forall_fst_bind; [apply indented_open_folder |]. intros _.
  apply Forall_fst_bind; [| intros _; apply indented_write_indented].
  assert (Hl : forall c, In c l -> forall i,
             Forall (fun c => indented (INDENT_SIZE * i) c = true)
                    (fst (convert_bookmarks_to_html c i)))
    by (intros c Hc; apply (IH d l c eq_refl Ec Hc)).
  clear IH Ec. induction l as [| c cs IHc]; [constructor |].
  rewrite convert_children_cons, convert_child.
  apply Forall_fst_bind.
  - destruct (separator c); [constructor |].
    eapply Forall_impl; [| apply (Hl c (or_introl eq_refl))].
    intros x Hx. apply (indented_weaken (INDENT_SIZE * indent) INDENT_SIZE).
    replace (INDENT_SIZE * indent + INDENT_SIZE)%nat
      with (INDENT_SIZE * (indent + 1))%nat by (unfold INDENT_SIZE; lia).
    exact Hx.
  - intros _. apply IHc. intros; apply Hl; right; assumption.
Qed.

Lemma not_anchor_below (n : nat) (c : string) :
  indented (n + INDENT_SIZE) c = true ->
  prefix (repeat_char " " n ++ anchor_open) c = false.
Proof.
  unfold indented. revert c. induction n as [| n IH]; intros c H.
  - destruct c as [| x c]; [reflexivity |].
    cbn [Nat.add INDENT_SIZE repeat_char prefix] in H.
    destruct (ascii_dec " " x) as [<- | N]; [reflexivity | discriminate].
  - destruct c as [| x c]; [reflexivity |].
    cbn [Nat.add repeat_char prefix append] in *.
    destruct (ascii_dec " " x); [apply IH; exact H | reflexivity].
Qed.

Lemma is_anchor_at_own (indent : nat) (text : string) :
  is_anchor_at indent (repeat_char " " (INDENT_SIZE * indent) ++ text)
  = prefix anchor_open text.
Proof. unfold is_anchor_at. apply prefix_same. Qed.

Lemma not_anchor_at_write_indented (indent : nat) (text : string) :
  prefix anchor_open (text ++ NL) = false ->
  Forall (fun c => is_anchor_at indent c = false) (fst (write_indented indent text)).
Proof.
  intros H. rewrite write_indented_chunk. constructor; [| constructor].
  rewrite is_anchor_at_own. exact H.
Qed.

Lemma not_anchor_at_open_folder (d : dict) (indent : nat) :
  Forall (fun c => is_anchor_at indent c = false) (fst (open_folder d indent)).
Proof.
  unfold open_folder. destruct indent as [| n]; cbn [Nat.eqb].
  - unfold write_html_header. apply Forall_fst_lift. intros t.
    apply not_anchor_at_write_indented. reflexivity.
  - unfold write_folder.
    apply Forall_fst_lift. intros t. apply Forall_fst_lift. intros a.
    apply Forall_fst_bind; intros; apply not_anchor_at_write_indented; reflexivity.
Qed.

Lemma not_anchor_at_children (cs : list json) (indent : nat) :
  Forall (fun c => is_anchor_at indent c = false) (fst (convert_children cs indent)).
Proof.
  induction cs as [| c cs IH]; [constructor |].
  rewrite convert_children_cons, convert_child.
  apply Forall_fst_bind; [| intros _; exact IH].
  destruct (separator c); [constructor |].
  eapply Forall_impl; [| apply indented_convert].
  intros x Hx. apply not_anchor_below.
  replace (INDENT_SIZE * indent + INDENT_SIZE)%nat
    with (INDENT_SIZE * (indent + 1))%nat by (unfold INDENT_SIZE; lia).
  exact Hx.
Qed.

(** What a folder writes first, when its texts can be escaped. *)
Lemma open_folder_header (d : dict) (t : string) :
  html_escape (dict_get_default d "title" (JStr "Bookmarks Menu")) = Ok t ->
  open_folder d 0 = ([(header t ++ NL)%string], Ok tt).
Proof.
  intros H. unfold open_folder, write_html_header. cbn [Nat.eqb].
  rewrite H, bind_lift. reflexivity.
Qed.

Lemma open_folder_heading (d : dict) (indent : nat) (t a : string) :
  (0 < indent)%nat ->
  html_escape (dict_get_default d "title" (JStr EmptyString)) = Ok t ->
  format_date_attributes d = Ok a ->
  open_folder d indent =
  ([(repeat_char " " (INDENT_SIZE * indent) ++ ("<DT><H3" ++ a ++ ">" ++ t ++ "</H3>") ++ NL)%string;
    (repeat_char " " (INDENT_SIZE * indent) ++ "<DL><p>" ++ NL)%string], Ok tt).
Proof.
  intros Hi Ht Ha. unfold open_folder, write_folder.
  destruct indent as [| n]; [lia |]. cbn [Nat.eqb].
  rewrite Ht, bind_lift, Ha, bind_lift. reflexivity.
Qed.

(* ================================================================== *)
(** ** C2 and C7: the root *)
(* ================================================================== *)














(* ================================================================== *)
(** ** C6 and C8: the loader *)
(* ================================================================== *)

Section ProcessFacts.

Variable lz4_block_decompress : list Byte.byte -> Z -> string + list Byte.byte.
Variable utf8_decode : list Byte.byte -> string + string.
Variable utf8_encode : string -> list Byte.byte.
Variable json_loads : string -> string + json.
Variable argv0 : string.
Variable exn_str : exn -> string.
Variable with_suffix_html : string -> string.
Variable path_str : string -> string.
Variable open_error : string -> option string.

Lemma signature_recognized (filename : string) (w : world) (content : list Byte.byte) :
  files w filename = Some content ->
  firstn 6 content = FIREFOX_LZ4_SIGNATURE ->
  is_valid_jsonlz4_file filename w = (w, Returns true).
Proof.
  intros Hf Hs.
  unfold is_valid_jsonlz4_file, pbind, is_file, try_except, read_bytes, pret.
  rewrite Hf. cbn [negb]. rewrite Hf. cbn [skipn].
  change (List.length FIREFOX_LZ4_SIGNATURE) with 6%nat.
  rewrite Hs. reflexivity.
Qed.

Lemma decompress_fails (filename : string) (w : world) (content : list Byte.byte)
      (msg : string) :
  files w filename = Some content ->
  lz4_block_decompress (skipn FIREFOX_LZ4_HEADER_SIZE content) DEFAULT_BUFFER_SIZE
  = inl msg ->
  decompress_jsonlz4 lz4_block_decompress utf8_decode json_loads argv0 filename w
  = err argv0 ("LZ4 decompression error: " ++ msg) w.
Proof.
  intros Hf Hz.
  unfold decompress_jsonlz4, try_except, pbind, compressed_data_of, read_bytes.
  rewrite Hf, Hz. reflexivity.
Qed.

(** C6, amended.  For a file that starts with the six bytes of the
    signature, the loader takes the container branch and hands to the
    decompressor the file from byte offset 12 on (the 12 bytes skipped
    are counted from the start of the file, the signature among them),
    with an expected size of 10 MiB; when the decompressor, the UTF-8
    decoder and the JSON parser succeed, it returns the parsed value and
    leaves the world as it was. *)
Theorem compressed_stream_starts_at_12 :
  forall (filename : string) (w : world) (content : list Byte.byte),
  files w filename = Some content ->
  firstn 6 content = FIREFOX_LZ4_SIGNATURE ->
  is_valid_jsonlz4_file filename w = (w, Returns true)
  /\ compressed_data_of filename w = (w, Returns (skipn 12 content))
  /\ (forall i, nth_error (skipn 12 content) i = nth_error content (12 + i))
  /\ DEFAULT_BUFFER_SIZE = 10485760
  /\ (forall data text v,
        lz4_block_decompress (skipn 12 content) 10485760 = inr data ->
        utf8_decode data = inr text ->
        json_loads text = inr v ->
        decompress_jsonlz4 lz4_block_decompress utf8_decode json_loads argv0 filename w
        = (w, Returns v))
  /\ (forall msg,
        lz4_block_decompress (skipn 12 content) 10485760 = inl msg ->
        decompress_jsonlz4 lz4_block_decompress utf8_decode json_loads argv0 filename w
        = err argv0 ("LZ4 decompression error: " ++ msg) w).
Proof.
  intros filename w content Hf Hs.
  split; [exact (signature_recognized filename w content Hf Hs) |].
  split; [unfold compressed_data_of, read_bytes; rewrite Hf; reflexivity |].
  split; [intros i; apply nth_error_skipn |].
  split; [reflexivity |].
  split.
  - intros data text v Hz Hu Hj.
    unfold decompress_jsonlz4, try_except, pbind, compressed_data_of, read_bytes, pret.
    rewrite Hf.
    change (skipn FIREFOX_LZ4_HEADER_SIZE content) with (skipn 12 content).
    change DEFAULT_BUFFER_SIZE with 10485760.
    rewrite Hz, Hu, Hj. reflexivity.
  - intros msg Hz. apply (decompress_fails filename w content msg Hf Hz).
Qed.

(** C8.  When the input file starts with the signature and the
    decompressor rejects what follows the skipped header, the process
    exits with status 1, the one line added to the error stream is the
    decompression error, and the files are what they were: no output
    file has been created. *)
Theorem corrupt_container_exits :
  forall (args : arguments) (w : world) (content : list Byte.byte) (msg : string),
  files w (input_file args) = Some content ->
  firstn 6 content = FIREFOX_LZ4_SIGNATURE ->
  lz4_block_decompress (skipn FIREFOX_LZ4_HEADER_SIZE content) DEFAULT_BUFFER_SIZE
  = inl msg ->
  exists w',
    main lz4_block_decompress utf8_decode utf8_encode json_loads argv0 exn_str
         with_suffix_html path_str open_error args w = (w', Exits 1)
    /\ stderr w' = stderr w ++ [(argv0 ++ ": LZ4 decompression error: " ++ msg ++ NL)%string]
    /\ stdout w' = stdout w ++ [("Processing Firefox jsonlz4 bookmark backup: "
                                 ++ input_file args ++ NL)%string]
    /\ files w' = files w.
Proof.
  intros args w content msg Hf Hs Hz.
  unfold main.
  unfold pbind at 1. unfold is_file at 1. rewrite Hf. cbn [negb].
  unfold pbind at 1. unfold pret at 1.
  unfold try_except. unfold pbind at 1.
  rewrite (signature_recognized (input_file args) w content Hf Hs).
  unfold pbind at 1. unfold pbind at 1. unfold print at 1.
  rewrite decompress_fails with (content := content) (msg := msg);
    [| exact Hf | exact Hz].
  unfold err. cbn [files stdout stderr].
  eexists. split; [reflexivity |]. split; [| split]; reflexivity.
Qed.

End ProcessFacts.

(** Against C6 as worded.  The stream handed to the decompressor starts
    at byte 12 of the file, not at byte 18: of this file of 20 bytes it
    is the last eight bytes, where the bytes from offset 18 are the last
    two. *)
Lemma stream_does_not_start_at_18 :
  firstn 6 corrupt_file = FIREFOX_LZ4_SIGNATURE
  /\ compressed_data_of "b.jsonlz4" corrupt_world
     = (corrupt_world,
        Returns [Byte.xa0; Byte.xa1; Byte.xa2; Byte.xa3;
                 Byte.xa4; Byte.xa5; Byte.xa6; Byte.xa7])
  /\ skipn 18 corrupt_file = [Byte.xa6; Byte.xa7].
Proof. repeat split; reflexivity. Qed.

Lemma compressed_stream_starts_at_12_witness :
  files corrupt_world "b.jsonlz4" = Some corrupt_file
  /\ firstn 6 corrupt_file = FIREFOX_LZ4_SIGNATURE
  /\ compressed_data_of "b.jsonlz4" corrupt_world
     = (corrupt_world, Returns (skipn 12 corrupt_file)).
Proof.
  split; [reflexivity |]. split; [reflexivity |].
  apply (compressed_stream_starts_at_12 rejecting_lz4 no_utf8 no_json "ff_bookmarks.py"
           "b.jsonlz4" corrupt_world corrupt_file eq_refl eq_refl).
Defined.

Lemma corrupt_container_exits_witness :
  files corrupt_world "b.jsonlz4" = Some corrupt_file
  /\ firstn 6 corrupt_file = FIREFOX_LZ4_SIGNATURE
  /\ rejecting_lz4 (skipn FIREFOX_LZ4_HEADER_SIZE corrupt_file) DEFAULT_BUFFER_SIZE
     = inl "corrupt input"
  /\ exists w',
       main rejecting_lz4 no_utf8 (fun _ => []) no_json "ff_bookmarks.py"
            (fun _ => EmptyString) (fun p => (p ++ ".html")%string)
            (fun p => p) (fun _ => None)
            {| input_file := "b.jsonlz4"; output_file := None |} corrupt_world
       = (w', Exits 1)
       /\ stderr w'
          = stderr corrupt_world
            ++ [("ff_bookmarks.py" ++ ": LZ4 decompression error: "
                 ++ "corrupt input" ++ NL)%string]
       /\ stdout w'
          = stdout corrupt_world
            ++ [("Processing Firefox jsonlz4 bookmark backup: "
                 ++ "b.jsonlz4" ++ NL)%string]
       /\ files w' = files corrupt_world.
Proof.
  split; [reflexivity |]. split; [reflexivity |]. split; [reflexivity |].
  apply (corrupt_container_exits rejecting_lz4 no_utf8 (fun _ => []) no_json
           "ff_bookmarks.py" (fun _ => EmptyString) (fun p => (p ++ ".html")%string)
           (fun p => p) (fun _ => None)
           {| input_file := "b.jsonlz4"; output_file := None |} corrupt_world
           corrupt_file "corrupt input" eq_refl eq_refl eq_refl).
Defined.

(* ================================================================== *)
(** ** Further properties: escaping *)
(* ================================================================== *)

Ltac split_chars :=
  repeat match goal with
         | |- context [Ascii.eqb ?c ?l] =>
             destruct (Ascii.eqb_spec c l); [subst |]
         end.

Lemma entity_app_inj (c1 c2 : ascii) (x1 x2 : string) :
  (entity c1 ++ x1 = entity c2 ++ x2)%string -> c1 = c2 /\ x1 = x2.
Proof.
  unfold entity. split_chars; cbn [append]; intros H;
    try discriminate H; injection H; intros; subst;
    try contradiction; try congruence; auto.
Qed.

Lemma entity_not_empty (c : ascii) (x : string) :
  (entity c ++ x)%string <> EmptyString.
Proof. unfold entity. split_chars; discriminate. Qed.

Lemma escape_each_inj (s1 : string) :
  forall s2, escape_each s1 = escape_each s2 -> s1 = s2.
Proof.
  induction s1 as [| c1 r1 IH]; intros [| c2 r2] H.
  - reflexivity.
  - cbn [escape_each] in H. symmetry in H. contradiction (entity_not_empty _ _ H).
  - cbn [escape_each] in H. contradiction (entity_not_empty _ _ H).
  - cbn [escape_each] in H. apply entity_app_inj in H. destruct H as [-> H].
    rewrite (IH r2 H). reflexivity.
Qed.

(** X1.  [html_escape] loses nothing: two texts that escape to the same
    text are the same text. *)
Theorem html_escape_injective : forall s1 s2 : string,
  html_escape (JStr s1) = html_escape (JStr s2) -> s1 = s2.
Proof.
  intros s1 s2 H. rewrite !html_escape_str in H.
  injection H as H. apply escape_each_inj. exact H.
Qed.

Lemma html_escape_injective_witness :
  html_escape (JStr "a<b") = html_escape (JStr "a<b") /\ "a<b" = "a<b".
Proof.
  split; [reflexivity |].
  apply (html_escape_injective "a<b" "a<b"). reflexivity.
Defined.

Lemma string_length_app (a b : string) :
  String.length (a ++ b) = (String.length a + String.length b)%nat.
Proof. induction a as [| x a IH]; [reflexivity |]. cbn. rewrite IH. reflexivity. Qed.

Lemma entity_plain (c : ascii) : special c = false -> entity c = String c EmptyString.
Proof.
  unfold special, entity. rewrite !orb_false_iff.
  intros ((((-> & ->) & ->) & ->) & ->). reflexivity.
Qed.

Lemma entity_special (c : ascii) :
  special c = true -> (2 <= String.length (entity c))%nat.
Proof.
  unfold special, entity. split_chars; cbn; intros H; try lia; discriminate H.
Qed.

Lemma entity_length (c : ascii) : (1 <= String.length (entity c))%nat.
Proof. unfold entity. split_chars; cbn; lia. Qed.

Lemma escape_each_length (s : string) :
  (String.length s <= String.length (escape_each s))%nat.
Proof.
  induction s as [| c r IH]; [reflexivity |].
  cbn [escape_each String.length]. rewrite string_length_app.
  pose proof (entity_length c). lia.
Qed.

Lemma escape_each_longer (s : string) :
  has_special s = true -> (String.length s < String.length (escape_each s))%nat.
Proof.
  induction s as [| c r IH]; [discriminate |].
  cbn [has_special escape_each String.length]. rewrite string_length_app.
  pose proof (escape_each_length r) as Hr. pose proof (entity_length c) as Hc.
  destruct (special c) eqn:Ec.
  - intros _. pose proof (entity_special c Ec) as Hs. lia.
  - cbn [orb]. intros Hsp. specialize (IH Hsp). lia.
Qed.

Lemma escape_each_plain (s : string) : has_special s = false -> escape_each s = s.
Proof.
  induction s as [| c r IH]; [reflexivity |].
  cbn [has_special]. rewrite orb_false_iff. intros [Hc Hr].
  cbn [escape_each]. rewrite (entity_plain c Hc), (IH Hr). reflexivity.
Qed.

(** X2.  [html_escape] never shortens a text, and it returns a text
    unchanged exactly when the text holds none of the five characters
    it replaces. *)
Theorem html_escape_unchanged : forall s t : string,
  (html_escape (JStr s) = Ok t -> (String.length s <= String.length t)%nat)
  /\ (html_escape (JStr s) = Ok s <-> has_special s = false).
Proof.
  intros s t. rewrite !html_escape_str. split.
  - intros [= <-]. apply escape_each_length.
  - split.
    + intros [= H]. destruct (has_special s) eqn:E; [| reflexivity].
      apply escape_each_longer in E. rewrite H in E. lia.
    + intros H. rewrite (escape_each_plain s H). reflexivity.
Qed.

(* ================================================================== *)
(** ** Further properties: the renderer *)
(* ================================================================== *)

Lemma bind_written (A : Type) (c : string) (k : unit -> W A) :
  bind ([c], Ok tt) k = (c :: fst (k tt), snd (k tt)).
Proof. cbn [bind]. destruct (k tt). reflexivity. Qed.

Lemma write_description_line (indent : nat) (a : dict) :
  eq_str (dict_get a "name") "bookmarkProperties/description" = true ->
  text_entry a "value" = true ->
  write_description indent (JDict a) = ([description_line indent (JDict a)], Ok tt).
Proof.
  intros Hn Hv. unfold write_description, description_line, dict_get_default.
  rewrite Hn. unfold text_entry in Hv.
  destruct (lookup a "value") as [[] |]; try discriminate Hv;
    rewrite html_escape_str, bind_lift, write_indented_chunk; reflexivity.
Qed.

Lemma descriptions_written (indent : nat) (annos : list json) :
  forallb annotation_ok annos = true ->
  for_each annos (write_description indent)
  = (map (description_line indent) (filter is_description annos), Ok tt).
Proof.
  induction annos as [| x annos IH]; [reflexivity |].
  cbn [forallb]. rewrite andb_true_iff. intros [Hx Hr].
  rewrite for_each_cons, (IH Hr). cbn [filter].
  destruct x; try reflexivity.
  cbn [is_description].
  destruct (eq_str (dict_get d "name") "bookmarkProperties/description") eqn:En.
  - rewrite (write_description_line indent d En Hx), bind_written. reflexivity.
  - cbn [write_description]. rewrite En. reflexivity.
Qed.

(** X3.  After its anchor line a bookmark gets one [<DD>] line for each
    annotation named bookmarkProperties/description, all of them and in
    their order, each with the escaped value (empty when the value is
    absent); annotations of other names, and annotations that are no
    dicts, give no line.  When [annos] is no list the anchor line is all
    that is written. *)
Theorem descriptions_follow_anchor :
  forall (d : dict) (indent : nat) (line : string),
  anchor_line (d, indent) = Some line ->
  (forall annos,
     dict_get d "annos" = JList annos ->
     forallb annotation_ok annos = true ->
     write_bookmark d indent
     = (line :: map (description_line indent) (filter is_description annos), Ok tt))
  /\ (is_list (dict_get d "annos") = false ->
        write_bookmark d indent = ([line], Ok tt)).
Proof.
  intros d indent line Hl.
  destruct (anchor_line_text d indent line Hl) as (t & a & h & Ht & Ha & Hh & ->).
  assert (E : write_bookmark d indent
              = bind (write_indented indent
                        ("<DT><A HREF=" ++ DQ ++ h ++ DQ ++ a ++ ">" ++ t ++ "</A>"))
                     (fun _ => match dict_get d "annos" with
                               | JList annos => for_each annos (write_description indent)
                               | _ => ret tt
                               end)).
  { unfold write_bookmark. rewrite Ht, bind_lift, Ha, bind_lift, Hh, bind_lift.
    reflexivity. }
  rewrite E, write_indented_chunk, bind_written. split.
  - intros annos Han Hok. rewrite Han, (descriptions_written indent annos Hok).
    reflexivity.
  - intros Hn. destruct (dict_get d "annos"); try reflexivity. discriminate Hn.
Qed.

Lemma descriptions_follow_anchor_witness :
  List.length (fst (write_bookmark annotated_bookmark 1)) = 3%nat.
Proof.
  pose proof
    (proj1 (descriptions_follow_anchor annotated_bookmark 1 _ eq_refl)
           _ eq_refl eq_refl) as E.
  rewrite E. reflexivity.
Defined.

(** X4.  The text of a bookmark's anchor: its escaped title when it has
    one; its escaped [uri] when it has no [title] entry; and nothing,
    not the [uri], when the title is [None]. *)
Theorem bookmark_title_falls_back_to_uri :
  forall (d : dict) (u attrs : string) (indent : nat),
  lookup d "uri" = Some (JStr u) ->
  format_date_attributes d = Ok attrs ->
  (lookup d "title" = None ->
     anchor_line (d, indent)
     = Some (repeat_char " " (INDENT_SIZE * indent)
             ++ ("<DT><A HREF=" ++ DQ ++ escape_each u ++ DQ ++ attrs ++ ">"
                 ++ escape_each u ++ "</A>")
             ++ NL)%string)
  /\ (forall t, lookup d "title" = Some (JStr t) ->
        anchor_line (d, indent)
        = Some (repeat_char " " (INDENT_SIZE * indent)
                ++ ("<DT><A HREF=" ++ DQ ++ escape_each u ++ DQ ++ attrs ++ ">"
                    ++ escape_each t ++ "</A>")
                ++ NL)%string)
  /\ (lookup d "title" = Some JNull ->
        anchor_line (d, indent)
        = Some (repeat_char " " (INDENT_SIZE * indent)
                ++ ("<DT><A HREF=" ++ DQ ++ escape_each u ++ DQ ++ attrs ++ ">"
                    ++ "</A>")
                ++ NL)%string).
Proof.
  intros d u attrs indent Hu Ha.
  assert (E : forall v t,
             dict_get_default d "title" (JStr u) = v -> html_escape v = Ok t ->
             anchor_line (d, indent)
             = Some (repeat_char " " (INDENT_SIZE * indent)
                     ++ ("<DT><A HREF=" ++ DQ ++ escape_each u ++ DQ ++ attrs ++ ">"
                         ++ t ++ "</A>")
                     ++ NL)%string).
  { intros v t Hv Ht. unfold anchor_line. cbn [fst snd]. unfold write_bookmark.
    assert (Eu : dict_get_default d "uri" (JStr EmptyString) = JStr u)
      by (unfold dict_get_default; rewrite Hu; reflexivity).
    rewrite Eu, Hv, Ht, bind_lift, Ha, bind_lift, html_escape_str, bind_lift.
    rewrite fst_bind, write_indented_chunk. reflexivity. }
  unfold dict_get_default in E. split; [| split].
  - intros Hn. rewrite Hn in E. apply (E (JStr u)); [reflexivity |].
    apply html_escape_str.
  - intros t Hs. rewrite Hs in E. apply (E (JStr t)); [reflexivity |].
    apply html_escape_str.
  - intros Hs. rewrite Hs in E. apply (E JNull); reflexivity.
Qed.

Lemma bookmark_title_falls_back_to_uri_witness :
  anchor_line ([("uri", JStr "http://b")], 1%nat)
  = Some ("    <DT><A HREF=" ++ DQ ++ "http://b" ++ DQ ++ ">http://b</A>" ++ NL)%string.
Proof.
  apply (proj1 (bookmark_title_falls_back_to_uri
                  [("uri", JStr "http://b")] "http://b" EmptyString 1
                  eq_refl eq_refl)).
  reflexivity.
Defined.

Lemma filter_none (f : string -> bool) (l : list string) :
  Forall (fun c => f c = false) l -> filter f l = [].
Proof.
  induction 1 as [| c l Hc _ IH]; [reflexivity |].
  cbn [filter]. rewrite Hc. exact IH.
Qed.

Lemma not_a_list_tag (indent : nat) (text : string) :
  opens_list (text ++ NL) = false ->
  closes_list (text ++ NL) = false ->
  Forall (fun c => opens_list c = false) (fst (write_indented indent text))
  /\ Forall (fun c => closes_list c = false) (fst (write_indented indent text)).
Proof.
  intros Ho Hc. rewrite write_indented_chunk. cbn [fst].
  split; (constructor; [| constructor]).
  - unfold opens_list in *. rewrite drop_spaces_indent. exact Ho.
  - unfold closes_list in *. rewrite drop_spaces_indent. exact Hc.
Qed.

Lemma no_list_tags_in_bookmark (d : dict) (indent : nat) :
  Forall (fun c => opens_list c = false) (fst (write_bookmark d indent))
  /\ Forall (fun c => closes_list c = false) (fst (write_bookmark d indent)).
Proof.
  assert (Hd : forall annos,
             Forall (fun c => opens_list c = false)
                    (fst (for_each annos (write_description indent)))
             /\ Forall (fun c => closes_list c = false)
                       (fst (for_each annos (write_description indent)))).
  { induction annos as [| x annos [IHo IHc]]; [split; constructor |].
    rewrite for_each_cons.
    assert (Hx : Forall (fun c => opens_list c = false)
                        (fst (write_description indent x))
                 /\ Forall (fun c => closes_list c = false)
                           (fst (write_description indent x))).
    { destruct x; try (split; constructor).
      unfold write_description. destruct (eq_str _ _); [| split; constructor].
      rewrite bind_lift. destruct (html_escape _); [| split; constructor].
      apply not_a_list_tag; reflexivity. }
    destruct Hx as [Hxo Hxc].
    split; (apply Forall_fst_bind; [assumption | intros _; assumption]). }
  unfold write_bookmark.
  rewrite bind_lift. destruct (html_escape _); [| split; constructor].
  rewrite bind_lift. destruct (format_date_attributes d); [| split; constructor].
  rewrite bind_lift. destruct (html_escape _); [| split; constructor].
  destruct (not_a_list_tag indent
              ("<DT><A HREF=" ++ DQ ++ a1 ++ DQ ++ a0 ++ ">" ++ a ++ "</A>")
              eq_refl eq_refl) as [Ho Hc].
  assert (Hrest : Forall (fun c => opens_list c = false)
                         (fst match dict_get d "annos" with
                              | JList annos => for_each annos (write_description indent)
                              | _ => ret tt
                              end)
                  /\ Forall (fun c => closes_list c = false)
                            (fst match dict_get d "annos" with
                                 | JList annos => for_each annos (write_description indent)
                                 | _ => ret tt
                                 end))
    by (destruct (dict_get d "annos"); try (split; constructor); apply Hd).
  destruct Hrest as [Hro Hrc].
  split; (apply Forall_fst_bind; [assumption | intros _; assumption]).
Qed.

(** What opening a folder adds: no closing tag, and one opening tag
    when it ends normally (none when it raises, before writing). *)
Lemma open_folder_tags (d : dict) (indent : nat) :
  filter closes_list (fst (open_folder d indent)) = []
  /\ (List.length (filter opens_list (fst (open_folder d indent))) <= 1)%nat
  /\ (snd (open_folder d indent) = Ok tt ->
      List.length (filter opens_list (fst (open_folder d indent))) = 1%nat).
Proof.
  unfold open_folder. destruct indent as [| n]; cbn [Nat.eqb].
  - unfold write_html_header. rewrite bind_lift.
    destruct (html_escape _) as [t | e];
      [| repeat split; [cbn; lia | discriminate]].
    rewrite write_indented_chunk. cbn [fst snd filter].
    assert (Ho : opens_list (repeat_char " " (INDENT_SIZE * 0) ++ header t ++ NL) = true)
      by reflexivity.
    assert (Hc : closes_list (repeat_char " " (INDENT_SIZE * 0) ++ header t ++ NL) = false)
      by reflexivity.
    rewrite Ho, Hc. repeat split; cbn; lia.
  - unfold write_folder. rewrite bind_lift.
    destruct (html_escape _) as [t | e];
      [| repeat split; [cbn; lia | discriminate]].
    rewrite bind_lift.
    destruct (format_date_attributes d) as [a | e];
      [| repeat split; [cbn; lia | discriminate]].
    rewrite !write_indented_chunk, bind_written. cbn [fst snd filter].
    unfold opens_list, closes_list. rewrite !drop_spaces_indent.
    cbn. repeat split; lia.
Qed.

Lemma closing_tags (indent : nat) :
  filter opens_list (fst (write_indented indent "</DL><p>")) = []
  /\ List.length (filter closes_list (fst (write_indented indent "</DL><p>"))) = 1%nat.
Proof.
  rewrite write_indented_chunk. cbn [fst filter].
  unfold opens_list, closes_list. rewrite !drop_spaces_indent. split; reflexivity.
Qed.

Lemma balanced_at (t : json) :
  forall indent,
    (List.length (filter closes_list (fst (convert_bookmarks_to_html t indent)))
     <= List.length (filter opens_list (fst (convert_bookmarks_to_html t indent))))%nat
    /\ (snd (convert_bookmarks_to_html t indent) = Ok tt ->
        List.length (filter opens_list (fst (convert_bookmarks_to_html t indent)))
        = List.length (filter closes_list (fst (convert_bookmarks_to_html t indent)))).
Proof.
  induction t as [t IH] using tree_ind. intros indent.
  destruct t; try (split; [cbn; lia | discriminate]).
  rewrite convert_dict.
  destruct (dict_get d "children") eqn:Ec;
    try (destruct (is_none (dict_get d "uri"));
         [split; [cbn; lia | reflexivity]
         |destruct (no_list_tags_in_bookmark d indent) as [Ho Hc];
          rewrite (filter_none opens_list _ Ho), (filter_none closes_list _ Hc);
          split; [cbn; lia | reflexivity]]).
  assert (Hch :
    (List.length (filter closes_list (fst (convert_children l indent)))
     <= List.length (filter opens_list (fst (convert_children l indent))))%nat
    /\ (snd (convert_children l indent) = Ok tt ->
        List.length (filter opens_list (fst (convert_children l indent)))
        = List.length (filter closes_list (fst (convert_children l indent))))).
  { assert (Hl : forall c, In c l -> forall i,
      (List.length (filter closes_list (fst (convert_bookmarks_to_html c i)))
       <= List.length (filter opens_list (fst (convert_bookmarks_to_html c i))))%nat
      /\ (snd (convert_bookmarks_to_html c i) = Ok tt ->
          List.length (filter opens_list (fst (convert_bookmarks_to_html c i)))
          = List.length (filter closes_list (fst (convert_bookmarks_to_html c i)))))
      by (intros c Hin; apply (IH d l c eq_refl Ec Hin)).
    clear IH Ec. induction l as [| c cs IHc]; [split; [cbn; lia | reflexivity] |].
    rewrite convert_children_cons, convert_child, fst_bind, snd_bind.
    rewrite !filter_app, !List.length_app.
    destruct IHc as [I1 I2]; [intros; apply Hl; right; assumption |].
    destruct (separator c).
    - cbn [ret fst snd filter List.length]. split; [lia | exact I2].
    - destruct (Hl c (or_introl eq_refl) (indent + 1)%nat) as [C1 C2].
      destruct (snd (convert_bookmarks_to_html c (indent + 1))) as [[] | e].
      + specialize (C2 eq_refl). split; [lia |]. intros H. specialize (I2 H). lia.
      + cbn [filter List.length]. split; [lia | discriminate]. }
  destruct Hch as [H1 H2].
  destruct (open_folder_tags d indent) as (Oc & Ole & Ook).
  destruct (closing_tags indent) as [Lo Lc].
  rewrite !fst_bind, !snd_bind, !filter_app, !List.length_app, Oc.
  destruct (snd (open_folder d indent)) as [[] | e].
  - specialize (Ook eq_refl).
    rewrite ?fst_bind, ?snd_bind, ?filter_app, ?List.length_app.
    destruct (snd (convert_children l indent)) as [[] | e].
    + specialize (H2 eq_refl). rewrite Lo, Lc.
      cbn [List.length]. split; [lia | intros _; lia].
    + cbn [filter List.length]. split; [lia | discriminate].
  - cbn [filter List.length]. split; [lia | discriminate].
Qed.

(** X5.  The list tags are balanced.  Among the chunks the walk of a
    tree writes, the closing list lines are never more than the opening
    ones (the header and the opening list lines); and when the walk ends
    without an exception there are as many of each. *)
Theorem list_tags_are_balanced : forall (t : json) (indent : nat),
  (List.length (filter closes_list (fst (convert_bookmarks_to_html t indent)))
   <= List.length (filter opens_list (fst (convert_bookmarks_to_html t indent))))%nat
  /\ (snd (convert_bookmarks_to_html t indent) = Ok tt ->
      List.length (filter opens_list (fst (convert_bookmarks_to_html t indent)))
      = List.length (filter closes_list (fst (convert_bookmarks_to_html t indent)))).
Proof. intros t indent. apply balanced_at. Qed.

Lemma line_write_indented (indent depth : nat) (text : string) :
  (indent <= depth)%nat ->
  Forall (line_at_least indent) (fst (write_indented depth text)).
Proof.
  intros H. rewrite write_indented_chunk. constructor; [| constructor].
  exists depth, text. split; [exact H | reflexivity].
Qed.

Lemma line_at_least_weaken (indent : nat) (c : string) :
  line_at_least (indent + 1) c -> line_at_least indent c.
Proof.
  intros (depth & text & H & ->). exists depth, text. split; [lia | reflexivity].
Qed.

Lemma lines_of_bookmark (d : dict) (indent : nat) :
  Forall (line_at_least indent) (fst (write_bookmark d indent)).
Proof.
  unfold write_bookmark.
  apply Forall_fst_lift. intros t. apply Forall_fst_lift. intros a.
  apply Forall_fst_lift. intros h.
  apply Forall_fst_bind; [apply line_write_indented; lia |]. intros _.
  destruct (dict_get d "annos"); try constructor.
  induction l as [| x l IH]; [constructor |].
  rewrite for_each_cons. apply Forall_fst_bind; [| intros _; exact IH].
  destruct x; try constructor.
  unfold write_description. destruct (eq_str _ _); [| constructor].
  apply Forall_fst_lift. intros t'. apply line_write_indented. lia.
Qed.

Lemma lines_at (t : json) :
  forall indent,
    Forall (line_at_least indent) (fst (convert_bookmarks_to_html t indent)).
Proof.
  induction t as [t IH] using tree_ind. intros indent.
  destruct t; try constructor.
  rewrite convert_dict.
  destruct (dict_get d "children") eqn:Ec;
    try (destruct (is_none (dict_get d "uri"));
         [constructor | apply lines_of_bookmark]).
  apply Forall_fst_bind.
  - unfold open_folder. destruct (indent =? 0)%nat eqn:Ei.
    + apply Nat.eqb_eq in Ei. subst indent.
      unfold write_html_header. apply Forall_fst_lift. intros t.
      apply line_write_indented. lia.
    + unfold write_folder.
      apply Forall_fst_lift. intros t. apply Forall_fst_lift. intros a.
      apply Forall_fst_bind; intros; apply line_write_indented; lia.
  - intros _.
    apply Forall_fst_bind; [| intros _; apply line_write_indented; lia].
    assert (Hl : forall c, In c l -> forall i,
               Forall (line_at_least i) (fst (convert_bookmarks_to_html c i)))
      by (intros c Hc; apply (IH d l c eq_refl Ec Hc)).
    clear IH Ec. induction l as [| c cs IHc]; [constructor |].
    rewrite convert_children_cons, convert_child.
    apply Forall_fst_bind.
    + destruct (separator c); [constructor |].
      eapply Forall_impl; [| apply (Hl c (or_introl eq_refl))].
      intros x. apply line_at_least_weaken.
    + intros _. apply IHc. intros; apply Hl; right; assumption.
Qed.

(** X6.  Whatever the tree, and also when the walk raises, every chunk
    written by the walk at depth [indent] is one line of
    [write_indented]: four blanks for each level of a depth that is at
    least [indent], a text, and a line feed at the end.  In particular
    it starts with the blanks of depth [indent]. *)
Theorem every_chunk_is_an_indented_line : forall (t : json) (indent : nat),
  Forall (line_at_least indent) (fst (convert_bookmarks_to_html t indent))
  /\ Forall (fun c => indented (INDENT_SIZE * indent) c = true)
            (fst (convert_bookmarks_to_html t indent)).
Proof.
  intros t indent. split; [apply lines_at | apply indented_convert].
Qed.

Lemma bind_assoc (A B C : Type) (m : W A) (k : A -> W B) (h : B -> W C) :
  bind (bind m k) h = bind m (fun a => bind (k a) h).
Proof.
  destruct m as [w [a | e]]; cbn [bind]; [| reflexivity].
  destruct (k a) as [w1 [b | e1]]; cbn [bind]; [| reflexivity].
  destruct (h b) as [w2 r2]. rewrite app_assoc. reflexivity.
Qed.

Lemma convert_children_app (cs1 cs2 : list json) (indent : nat) :
  convert_children (cs1 ++ cs2) indent
  = (convert_children cs1 indent ;; convert_children cs2 indent).
Proof.
  induction cs1 as [| c cs1 IH].
  - cbn [app]. symmetry. apply (bind_ret_l unit unit tt (fun _ => convert_children cs2 indent)).
  - cbn [app]. rewrite !convert_children_cons, !convert_child, IH.
    symmetry. apply bind_assoc.
Qed.

(** X7.  A child that is no dict stops the walk of its folder: the
    walk raises [AttributeError] after the folder's opening and the
    walks of the children before it; the children after it and the
    closing list line are not written. *)
Theorem child_that_is_no_dict_stops_the_walk :
  forall (d : dict) (cs1 cs2 : list json) (c : json) (indent : nat)
         (w0 w1 : list string),
  dict_get d "children" = JList (cs1 ++ c :: cs2) ->
  (forall x, c <> JDict x) ->
  open_folder d indent = (w0, Ok tt) ->
  convert_children cs1 indent = (w1, Ok tt) ->
  convert_bookmarks_to_html (JDict d) indent = (w0 ++ w1, Raise AttributeError).
Proof.
  intros d cs1 cs2 c indent w0 w1 Hc Hn Ho H1.
  rewrite convert_dict, Hc, Ho, convert_children_app, H1.
  rewrite convert_children_cons.
  assert (E : is_separator c = Raise AttributeError)
    by (destruct c; try reflexivity; contradiction (Hn d0 eq_refl)).
  rewrite E. cbn. rewrite app_nil_r. reflexivity.
Qed.

Lemma child_that_is_no_dict_stops_the_walk_witness :
  convert_bookmarks_to_html
    (JDict [("children", JList [JDict [("uri", JStr "a")]; JStr "oops";
                                JDict [("uri", JStr "b")]])]) 0
  = ([(header "Bookmarks Menu" ++ NL)%string;
      ("    <DT><A HREF=" ++ DQ ++ "a" ++ DQ ++ ">a</A>" ++ NL)%string],
     Raise AttributeError).
Proof.
  apply (child_that_is_no_dict_stops_the_walk
           [("children", JList [JDict [("uri", JStr "a")]; JStr "oops";
                                JDict [("uri", JStr "b")]])]
           [JDict [("uri", JStr "a")]] [JDict [("uri", JStr "b")]] (JStr "oops") 0
           [(header "Bookmarks Menu" ++ NL)%string]
           [("    <DT><A HREF=" ++ DQ ++ "a" ++ DQ ++ ">a</A>" ++ NL)%string]).
  - reflexivity.
  - intros x. discriminate.
  - reflexivity.
  - reflexivity.
Defined.

(* ================================================================== *)
(** ** Further properties: the loader and the process *)
(* ================================================================== *)

Lemma bytes_eqb_eq (a b : list Byte.byte) : bytes_eqb a b = true <-> a = b.
Proof.
  revert b. induction a as [| x a IH]; intros [| y b]; cbn [bytes_eqb];
    try (split; [discriminate | discriminate]); [tauto |].
  rewrite andb_true_iff, IH. split.
  - intros [Hx ->]. apply Byte.byte_dec_bl in Hx. subst. reflexivity.
  - intros [= -> ->]. split; [apply Byte.byte_dec_lb |]; reflexivity.
Qed.

Lemma is_valid_jsonlz4_file_eq (filename : string) (w : world) :
  is_valid_jsonlz4_file filename w
  = (w, Returns match files w filename with
                | Some content => bytes_eqb (firstn 6 content) FIREFOX_LZ4_SIGNATURE
                | None => false
                end).
Proof.
  unfold is_valid_jsonlz4_file, pbind, is_file, try_except, read_bytes, pret.
  destruct (files w filename) as [content |] eqn:Hf; cbn [negb]; [| reflexivity].
  rewrite Hf. reflexivity.
Qed.

(** X8.  [is_valid_jsonlz4_file] answers without raising and without
    touching the world, and it answers [True] exactly when the file
    exists and its first six bytes are the signature; a file shorter
    than the signature is no container. *)
Theorem signature_test : forall (filename : string) (w : world),
  exists b : bool,
    is_valid_jsonlz4_file filename w = (w, Returns b)
    /\ (b = true <->
        exists content,
          files w filename = Some content
          /\ firstn 6 content = FIREFOX_LZ4_SIGNATURE)
    /\ (forall content,
          files w filename = Some content -> (List.length content < 6)%nat ->
          b = false).
Proof.
  intros filename w. rewrite is_valid_jsonlz4_file_eq. eexists.
  split; [reflexivity |]. split.
  - destruct (files w filename) as [content |].
    + rewrite bytes_eqb_eq. split.
      * intros H. exists content. auto.
      * intros (c & [= <-] & H). exact H.
    + split; [discriminate | intros (c & H & _); discriminate H].
  - intros content -> Hlen.
    destruct (bytes_eqb (firstn 6 content) FIREFOX_LZ4_SIGNATURE) eqn:E;
      [| reflexivity].
    apply bytes_eqb_eq in E. apply (f_equal (@List.length _)) in E.
    rewrite length_firstn in E.
    change (List.length FIREFOX_LZ4_SIGNATURE) with 6%nat in E. lia.
Qed.

Section ProcessMore.

Variable lz4_block_decompress : list Byte.byte -> Z -> string + list Byte.byte.
Variable utf8_decode : list Byte.byte -> string + string.
Variable utf8_encode : string -> list Byte.byte.
Variable json_loads : string -> string + json.
Variable argv0 : string.
Variable exn_str : exn -> string.
Variable with_suffix_html : string -> string.
Variable path_str : string -> string.
Variable open_error : string -> option string.

Lemma json_load_eq (filename : string) (w : world) :
  json_load utf8_decode json_loads filename w
  = (w, match files w filename with
        | Some content => parsed utf8_decode json_loads content
        | None => Raises (no_such_file filename)
        end).
Proof.
  unfold json_load, pbind, read_bytes, parsed, pret.
  destruct (files w filename) as [content |]; [| reflexivity].
  cbn [skipn]. destruct (utf8_decode content); [reflexivity |].
  destruct (json_loads s); reflexivity.
Qed.

Lemma is_json_file_eq (filename : string) (w : world) :
  is_json_file utf8_decode json_loads filename w
  = (w, match files w filename with
        | Some content =>
            match parsed utf8_decode json_loads content with
            | Returns _ => Returns true
            | Raises (JSONDecodeError _) => Returns false
            | Raises e => Raises e
            | Exits c => Exits c
            end
        | None => Returns false
        end).
Proof.
  unfold is_json_file. unfold pbind at 1. unfold is_file.
  destruct (files w filename) as [content |] eqn:Hf; cbn [negb]; [| reflexivity].
  unfold try_except, pbind, pret. rewrite json_load_eq, Hf.
  unfold parsed. destruct (utf8_decode content); [reflexivity |].
  destruct (json_loads s); reflexivity.
Qed.

Lemma load_json_file_eq (filename : string) (w : world) :
  load_json_file utf8_decode json_loads argv0 filename w
  = match files w filename with
    | Some content =>
        match parsed utf8_decode json_loads content with
        | Raises (JSONDecodeError msg) =>
            err argv0 ("Error loading JSON file: " ++ msg) w
        | r => (w, r)
        end
    | None =>
        err argv0 ("Error loading JSON file: "
                   ++ "[Errno 2] No such file or directory: '" ++ filename ++ "'") w
    end.
Proof.
  unfold load_json_file, try_except. rewrite json_load_eq.
  destruct (files w filename) as [content |]; [| reflexivity].
  unfold parsed. destruct (utf8_decode content); [reflexivity |].
  destruct (json_loads s); reflexivity.
Qed.

(** X9.  How [load_json_file] ends: a file that cannot be opened, and
    a text that is not JSON, end the process with status 1 after one
    line on the error stream that starts Error loading JSON file (and,
    for the text, goes on with the parser's message); bytes that are not
    UTF-8 raise [UnicodeDecodeError], which its handler does not catch;
    otherwise it returns the parsed value.  The files and the standard
    output are left as they were. *)
Theorem load_json_file_outcomes : forall (filename : string) (w : world),
  (files w filename = None ->
     exists reason,
       load_json_file utf8_decode json_loads argv0 filename w
       = ({| files := files w; stdout := stdout w;
             stderr := stderr w
                       ++ [(argv0 ++ ": " ++ ("Error loading JSON file: " ++ reason)
                            ++ NL)%string] |},
          Exits 1))
  /\ (forall content text msg,
        files w filename = Some content ->
        utf8_decode content = inr text -> json_loads text = inl msg ->
        load_json_file utf8_decode json_loads argv0 filename w
        = ({| files := files w; stdout := stdout w;
              stderr := stderr w
                        ++ [(argv0 ++ ": " ++ ("Error loading JSON file: " ++ msg)
                             ++ NL)%string] |},
           Exits 1))
  /\ (forall content msg,
        files w filename = Some content -> utf8_decode content = inl msg ->
        load_json_file utf8_decode json_loads argv0 filename w
        = (w, Raises (UnicodeDecodeError msg)))
  /\ (forall content text v,
        files w filename = Some content ->
        utf8_decode content = inr text -> json_loads text = inr v ->
        load_json_file utf8_decode json_loads argv0 filename w = (w, Returns v)).
Proof.
  intros filename w. rewrite load_json_file_eq. unfold parsed.
  split; [intros ->; eexists; reflexivity |].
  split; [intros content text msg -> -> ->; reflexivity |].
  split; [intros content msg -> ->; reflexivity |].
  intros content text v -> -> ->. reflexivity.
Qed.

(** X10.  The test and the load agree: when [is_json_file] answers
    [True] for a file, [load_json_file] on the same world returns the
    value parsed from that file, and neither exits nor raises. *)
Theorem json_test_then_load :
  forall (filename : string) (w w' : world),
  is_json_file utf8_decode json_loads filename w = (w', Returns true) ->
  w' = w
  /\ exists content text v,
       files w filename = Some content
       /\ utf8_decode content = inr text
       /\ json_loads text = inr v
       /\ load_json_file utf8_decode json_loads argv0 filename w = (w, Returns v).
Proof.
  intros filename w w'. rewrite is_json_file_eq, load_json_file_eq. unfold parsed.
  destruct (files w filename) as [content |]; [| discriminate].
  destruct (utf8_decode content) as [m | text] eqn:Hu; [discriminate |].
  destruct (json_loads text) as [m | v] eqn:Hj; [discriminate |].
  intros [= <-]. split; [reflexivity |].
  exists content, text, v. repeat split; try reflexivity; assumption.
Qed.

End ProcessMore.

Section MainPaths.

Variable lz4_block_decompress : list Byte.byte -> Z -> string + list Byte.byte.
Variable utf8_decode : list Byte.byte -> string + string.
Variable utf8_encode : string -> list Byte.byte.
Variable json_loads : string -> string + json.
Variable argv0 : string.
Variable exn_str : exn -> string.
Variable with_suffix_html : string -> string.
Variable path_str : string -> string.
Variable open_error : string -> option string.

Lemma decompress_jsonlz4_eq (filename : string) (w : world) :
  decompress_jsonlz4 lz4_block_decompress utf8_decode json_loads argv0 filename w
  = match files w filename with
    | None =>
        err argv0 ("File reading error: "
                   ++ "[Errno 2] No such file or directory: '" ++ filename ++ "'") w
    | Some content =>
        match lz4_block_decompress (skipn FIREFOX_LZ4_HEADER_SIZE content)
                                   DEFAULT_BUFFER_SIZE with
        | inl msg => err argv0 ("LZ4 decompression error: " ++ msg) w
        | inr data =>
            match parsed utf8_decode json_loads data with
            | Raises (JSONDecodeError msg) =>
                err argv0 ("JSON parsing error: " ++ msg) w
            | r => (w, r)
            end
        end
    end.
Proof.
  unfold decompress_jsonlz4, try_except, pbind, compressed_data_of, read_bytes, parsed.
  destruct (files w filename) as [content |]; [| reflexivity].
  destruct (lz4_block_decompress _ _) as [msg | data]; [reflexivity |].
  destruct (utf8_decode data); [reflexivity |].
  destruct (json_loads s); reflexivity.
Qed.

(** The end of [main], from the parsed tree on. *)
Lemma main_from_tree (args : arguments) (w : world) (content : list Byte.byte)
      (v : json) (processing : string) :
  files w (input_file args) = Some content ->
  (if bytes_eqb (firstn 6 content) FIREFOX_LZ4_SIGNATURE then
     print ("Processing Firefox jsonlz4 bookmark backup: " ++ input_file args) ;;;
     decompress_jsonlz4 lz4_block_decompress utf8_decode json_loads argv0
                        (input_file args)
   else
     js <~ is_json_file utf8_decode json_loads (input_file args) ;;
     if js then
       print ("Processing JSON bookmark file: " ++ input_file args) ;;;
       load_json_file utf8_decode json_loads argv0 (input_file args)
     else
       err argv0 ("'" ++ input_file args ++
                  "' is not a valid Firefox bookmark backup file (.jsonlz4) or JSON file."))
    w
  = ({| files := files w; stdout := stdout w ++ [(processing ++ NL)%string];
        stderr := stderr w |}, Returns v) ->
  main lz4_block_decompress utf8_decode utf8_encode json_loads argv0 exn_str
       with_suffix_html path_str open_error args w
  = let out := output_path_of with_suffix_html path_str args in
    let written chunks :=
      fun p => if String.eqb p out then Some (utf8_encode (file_text chunks))
               else files w p in
    let said := (stdout w ++ [(processing ++ NL)%string])
                ++ [("Converting bookmarks to HTML format..." ++ NL)%string] in
    match open_error out with
    | Some msg =>
        ({| files := files w;
            stdout := said;
            stderr := stderr w
                      ++ [(argv0 ++ ": "
                           ++ ("Conversion failed: " ++ exn_str (OSError msg)) ++ NL)%string] |},
         Exits 1)
    | None =>
        match convert_bookmarks_to_html v 0 with
        | (chunks, Ok _) =>
            ({| files := written chunks;
                stdout := said
                          ++ [(("Successfully converted bookmarks to: " ++ out) ++ NL)%string];
                stderr := stderr w |}, Returns tt)
        | (chunks, Raise e) =>
            ({| files := written chunks;
                stdout := said;
                stderr := stderr w
                          ++ [(argv0 ++ ": " ++ ("Conversion failed: " ++ exn_str e)
                               ++ NL)%string] |},
             Exits 1)
        end
    end.
Proof.
  intros Hf Hload.
  unfold main.
  unfold pbind at 1. unfold is_file at 1. rewrite Hf. cbn [negb].
  unfold pbind at 1. unfold pret at 1.
  unfold try_except. unfold pbind at 1.
  rewrite is_valid_jsonlz4_file_eq, Hf.
  unfold pbind at 1. rewrite Hload.
  unfold pbind, print, write_html_file, err, output_path_of.
  cbn [files stdout stderr].
  destruct (open_error _); [reflexivity |].
  destruct (convert_bookmarks_to_html v 0) as [chunks [[] | e]]; reflexivity.
Qed.

Lemma load_json_path (args : arguments) (w : world) (content : list Byte.byte)
      (text : string) (v : json) :
  files w (input_file args) = Some content ->
  utf8_decode content = inr text ->
  json_loads text = inr v ->
  (js <~ is_json_file utf8_decode json_loads (input_file args) ;;
   if js then
     print ("Processing JSON bookmark file: " ++ input_file args) ;;;
     load_json_file utf8_decode json_loads argv0 (input_file args)
   else
     err argv0 ("'" ++ input_file args ++
                "' is not a valid Firefox bookmark backup file (.jsonlz4) or JSON file."))
    w
  = ({| files := files w;
        stdout := stdout w
                  ++ [(("Processing JSON bookmark file: " ++ input_file args) ++ NL)%string];
        stderr := stderr w |}, Returns v).
Proof.
  intros Hf Hu Hj.
  unfold pbind at 1. rewrite is_json_file_eq, Hf. unfold parsed. rewrite Hu, Hj.
  unfold pbind, print. rewrite load_json_file_eq. cbn [files].
  rewrite Hf. unfold parsed. rewrite Hu, Hj. reflexivity.
Qed.

Lemma load_container_path (args : arguments) (w : world) (content data : list Byte.byte)
      (text : string) (v : json) :
  files w (input_file args) = Some content ->
  lz4_block_decompress (skipn FIREFOX_LZ4_HEADER_SIZE content) DEFAULT_BUFFER_SIZE
  = inr data ->
  utf8_decode data = inr text ->
  json_loads text = inr v ->
  (print ("Processing Firefox jsonlz4 bookmark backup: " ++ input_file args) ;;;
   decompress_jsonlz4 lz4_block_decompress utf8_decode json_loads argv0
                      (input_file args)) w
  = ({| files := files w;
        stdout := stdout w
                  ++ [(("Processing Firefox jsonlz4 bookmark backup: " ++ input_file args)
                       ++ NL)%string];
        stderr := stderr w |}, Returns v).
Proof.
  intros Hf Hz Hu Hj.
  unfold pbind, print. rewrite decompress_jsonlz4_eq. cbn [files].
  rewrite Hf, Hz. unfold parsed. rewrite Hu, Hj. reflexivity.
Qed.

(** X11.  A JSON file that parses to a tree whose walk raises nothing
    is converted, when the output file can be opened for writing:
    [main] returns normally, the output file holds the encoded text of
    all the chunks of the walk, nothing is written to the error stream,
    and the three progress lines are printed, the last one naming the
    output file.  The output file is the [-o] path, as [pathlib] prints
    it, when one is given and is not empty, and the input path with the
    suffix [.html] otherwise. *)
Theorem json_file_is_converted :
  forall (args : arguments) (w : world) (content : list Byte.byte)
         (text : string) (v : json) (chunks : list string) (out : string),
  files w (input_file args) = Some content ->
  bytes_eqb (firstn 6 content) FIREFOX_LZ4_SIGNATURE = false ->
  utf8_decode content = inr text ->
  json_loads text = inr v ->
  convert_bookmarks_to_html v 0 = (chunks, Ok tt) ->
  out = match output_file args with
        | Some o => if String.eqb o "" then with_suffix_html (input_file args)
                    else path_str o
        | None => with_suffix_html (input_file args)
        end ->
  open_error out = None ->
  exists w',
    main lz4_block_decompress utf8_decode utf8_encode json_loads argv0 exn_str
         with_suffix_html path_str open_error args w = (w', Returns tt)
    /\ files w' out = Some (utf8_encode (file_text chunks))
    /\ stderr w' = stderr w
    /\ stdout w'
       = stdout w
         ++ [(("Processing JSON bookmark file: " ++ input_file args) ++ NL)%string;
             ("Converting bookmarks to HTML format..." ++ NL)%string;
             (("Successfully converted bookmarks to: " ++ out) ++ NL)%string].
Proof.
  intros args w content text v chunks out Hf Hs Hu Hj Hc -> Ho.
  rewrite (main_from_tree args w content v
             ("Processing JSON bookmark file: " ++ input_file args) Hf);
    [| rewrite Hs; apply (load_json_path args w content text v Hf Hu Hj)].
  cbv zeta. unfold output_path_of. rewrite Ho, Hc.
  eexists. split; [reflexivity |].
  cbn [files stdout stderr].
  split; [rewrite String.eqb_refl; reflexivity |].
  split; [reflexivity |].
  rewrite <- !app_assoc. reflexivity.
Qed.

(** X12.  A container whose payload decompresses, decodes and parses
    to a tree whose walk raises nothing is converted in the same way,
    when the output file can be opened for writing: [main] returns
    normally, the output file holds the encoded text of the chunks of
    the walk and is named on the last progress line, and nothing is
    written to the error stream. *)
Theorem container_is_converted :
  forall (args : arguments) (w : world) (content data : list Byte.byte)
         (text : string) (v : json) (chunks : list string),
  files w (input_file args) = Some content ->
  firstn 6 content = FIREFOX_LZ4_SIGNATURE ->
  lz4_block_decompress (skipn FIREFOX_LZ4_HEADER_SIZE content) DEFAULT_BUFFER_SIZE
  = inr data ->
  utf8_decode data = inr text ->
  json_loads text = inr v ->
  convert_bookmarks_to_html v 0 = (chunks, Ok tt) ->
  open_error (output_path_of with_suffix_html path_str args) = None ->
  exists w',
    main lz4_block_decompress utf8_decode utf8_encode json_loads argv0 exn_str
         with_suffix_html path_str open_error args w = (w', Returns tt)
    /\ files w' (output_path_of with_suffix_html path_str args)
       = Some (utf8_encode (file_text chunks))
    /\ stderr w' = stderr w
    /\ stdout w'
       = stdout w
         ++ [(("Processing Firefox jsonlz4 bookmark backup: " ++ input_file args)
              ++ NL)%string;
             ("Converting bookmarks to HTML format..." ++ NL)%string;
             (("Successfully converted bookmarks to: "
               ++ output_path_of with_suffix_html path_str args) ++ NL)%string].
Proof.
  intros args w content data text v chunks Hf Hs Hz Hu Hj Hc Ho.
  rewrite (main_from_tree args w content v
             ("Processing Firefox jsonlz4 bookmark backup: " ++ input_file args) Hf);
    [| rewrite Hs;
       apply (load_container_path args w content data text v Hf Hz Hu Hj)].
  cbv zeta. rewrite Ho, Hc.
  eexists. split; [reflexivity |].
  cbn [files stdout stderr].
  split; [rewrite String.eqb_refl; reflexivity |].
  split; [reflexivity |].
  rewrite <- !app_assoc. reflexivity.
Qed.

(** X13.  When the output file can be opened and the walk of the
    parsed tree then raises, the output file has been created and keeps
    the chunks written before the exception: [main] exits with status 1
    after the line Conversion failed with the text of the exception on
    the error stream, the line of success is not printed, and the
    partial output file stays. *)
Theorem failed_walk_leaves_partial_output :
  forall (args : arguments) (w : world) (content : list Byte.byte)
         (text : string) (v : json) (chunks : list string) (e : exn),
  files w (input_file args) = Some content ->
  bytes_eqb (firstn 6 content) FIREFOX_LZ4_SIGNATURE = false ->
  utf8_decode content = inr text ->
  json_loads text = inr v ->
  convert_bookmarks_to_html v 0 = (chunks, Raise e) ->
  open_error (output_path_of with_suffix_html path_str args) = None ->
  exists w',
    main lz4_block_decompress utf8_decode utf8_encode json_loads argv0 exn_str
         with_suffix_html path_str open_error args w = (w', Exits 1)
    /\ files w' (output_path_of with_suffix_html path_str args)
       = Some (utf8_encode (file_text chunks))
    /\ stderr w'
       = stderr w ++ [(argv0 ++ ": " ++ ("Conversion failed: " ++ exn_str e) ++ NL)%string]
    /\ stdout w'
       = stdout w
         ++ [(("Processing JSON bookmark file: " ++ input_file args) ++ NL)%string;
             ("Converting bookmarks to HTML format..." ++ NL)%string].
Proof.
  intros args w content text v chunks e Hf Hs Hu Hj Hc Ho.
  rewrite (main_from_tree args w content v
             ("Processing JSON bookmark file: " ++ input_file args) Hf);
    [| rewrite Hs; apply (load_json_path args w content text v Hf Hu Hj)].
  cbv zeta. rewrite Ho, Hc.
  eexists. split; [reflexivity |].
  cbn [files stdout stderr].
  split; [rewrite String.eqb_refl; reflexivity |].
  split; [reflexivity |].
  rewrite <- !app_assoc. reflexivity.
Qed.

(** X14.  A JSON document whose top-level value is no object (a list,
    a text, a number, null) is accepted by the loader, and then, when
    the output file can be opened, the walk raises [AttributeError]
    before writing: [main] leaves an empty output file and exits with
    status 1. *)
Theorem top_level_must_be_an_object :
  forall (args : arguments) (w : world) (content : list Byte.byte)
         (text : string) (v : json),
  files w (input_file args) = Some content ->
  bytes_eqb (firstn 6 content) FIREFOX_LZ4_SIGNATURE = false ->
  utf8_decode content = inr text ->
  json_loads text = inr v ->
  (forall d, v <> JDict d) ->
  open_error (output_path_of with_suffix_html path_str args) = None ->
  exists w',
    main lz4_block_decompress utf8_decode utf8_encode json_loads argv0 exn_str
         with_suffix_html path_str open_error args w = (w', Exits 1)
    /\ files w' (output_path_of with_suffix_html path_str args)
       = Some (utf8_encode EmptyString)
    /\ stderr w'
       = stderr w
         ++ [(argv0 ++ ": " ++ ("Conversion failed: " ++ exn_str AttributeError)
              ++ NL)%string].
Proof.
  intros args w content text v Hf Hs Hu Hj Hv Ho.
  rewrite (main_from_tree args w content v
             ("Processing JSON bookmark file: " ++ input_file args) Hf);
    [| rewrite Hs; apply (load_json_path args w content text v Hf Hu Hj)].
  cbv zeta. rewrite Ho, (convert_not_dict v 0 Hv). unfold raise.
  eexists. split; [reflexivity |].
  cbn [files stdout stderr].
  split; [rewrite String.eqb_refl; reflexivity | reflexivity].
Qed.

(** X23.  When the output file cannot be opened for writing (its
    directory is missing, the path is a directory, it may not be
    written), the input is loaded and the tree is never walked: [main]
    exits with status 1 after the line Conversion failed with the text
    of the [OSError], the line of success is not printed, and no file is
    created or changed. *)
Theorem unwritable_output_fails_the_conversion :
  forall (args : arguments) (w : world) (content : list Byte.byte)
         (text : string) (v : json) (msg : string),
  files w (input_file args) = Some content ->
  bytes_eqb (firstn 6 content) FIREFOX_LZ4_SIGNATURE = false ->
  utf8_decode content = inr text ->
  json_loads text = inr v ->
  open_error (output_path_of with_suffix_html path_str args) = Some msg ->
  main lz4_block_decompress utf8_decode utf8_encode json_loads argv0 exn_str
       with_suffix_html path_str open_error args w
  = ({| files := files w;
        stdout := stdout w
                  ++ [(("Processing JSON bookmark file: " ++ input_file args) ++ NL)%string;
                      ("Converting bookmarks to HTML format..." ++ NL)%string];
        stderr := stderr w
                  ++ [(argv0 ++ ": "
                       ++ ("Conversion failed: " ++ exn_str (OSError msg)) ++ NL)%string] |},
     Exits 1).
Proof.
  intros args w content text v msg Hf Hs Hu Hj Ho.
  rewrite (main_from_tree args w content v
             ("Processing JSON bookmark file: " ++ input_file args) Hf);
    [| rewrite Hs; apply (load_json_path args w content text v Hf Hu Hj)].
  cbv zeta. rewrite Ho. rewrite <- !app_assoc. reflexivity.
Qed.

End MainPaths.

Section Endings.

Variable lz4_block_decompress : list Byte.byte -> Z -> string + list Byte.byte.
Variable utf8_decode : list Byte.byte -> string + string.
Variable utf8_encode : string -> list Byte.byte.
Variable json_loads : string -> string + json.
Variable argv0 : string.
Variable exn_str : exn -> string.
Variable with_suffix_html : string -> string.
Variable path_str : string -> string.
Variable open_error : string -> option string.

(** X15.  An input path that is no file ends [main] at once: status 1,
    one line on the error stream naming the path, nothing printed, no
    file touched. *)
Theorem missing_input_exits :
  forall (args : arguments) (w : world),
  files w (input_file args) = None ->
  main lz4_block_decompress utf8_decode utf8_encode json_loads argv0 exn_str
       with_suffix_html path_str open_error args w
  = ({| files := files w; stdout := stdout w;
        stderr := stderr w
                  ++ [(argv0 ++ ": "
                       ++ ("Input file '" ++ input_file args ++ "' does not exist.")
                       ++ NL)%string] |},
     Exits 1).
Proof.
  intros args w Hf. unfold main.
  unfold pbind at 1. unfold is_file at 1. rewrite Hf. cbn [negb].
  unfold pbind at 1. reflexivity.
Qed.

(** X16.  A file that neither starts with the signature nor parses as
    JSON is refused: [main] exits with status 1 after the line that says
    it is not a valid backup or JSON file; nothing is printed and no
    file is written. *)
Theorem unrecognized_file_exits :
  forall (args : arguments) (w : world) (content : list Byte.byte)
         (text msg : string),
  files w (input_file args) = Some content ->
  bytes_eqb (firstn 6 content) FIREFOX_LZ4_SIGNATURE = false ->
  utf8_decode content = inr text ->
  json_loads text = inl msg ->
  main lz4_block_decompress utf8_decode utf8_encode json_loads argv0 exn_str
       with_suffix_html path_str open_error args w
  = ({| files := files w; stdout := stdout w;
        stderr := stderr w
                  ++ [(argv0 ++ ": "
                       ++ ("'" ++ input_file args ++
                           "' is not a valid Firefox bookmark backup file (.jsonlz4) or JSON file.")
                       ++ NL)%string] |},
     Exits 1).
Proof.
  intros args w content text msg Hf Hs Hu Hj. unfold main.
  unfold pbind at 1. unfold is_file at 1. rewrite Hf. cbn [negb].
  unfold pbind at 1. unfold pret at 1.
  unfold try_except. unfold pbind at 1.
  rewrite is_valid_jsonlz4_file_eq, Hf, Hs.
  unfold pbind at 1. unfold pbind at 1.
  rewrite is_json_file_eq, Hf. unfold parsed. rewrite Hu, Hj.
  reflexivity.
Qed.

(** X17.  A file without the signature whose bytes are not UTF-8 is
    not reported as an unrecognized file: the decoding error escapes
    [is_json_file], whose handler catches only the JSON and OS errors,
    and [main] ends with status 1 and the line Conversion failed; no
    file is written. *)
Theorem undecodable_file_fails_the_conversion :
  forall (args : arguments) (w : world) (content : list Byte.byte) (msg : string),
  files w (input_file args) = Some content ->
  bytes_eqb (firstn 6 content) FIREFOX_LZ4_SIGNATURE = false ->
  utf8_decode content = inl msg ->
  main lz4_block_decompress utf8_decode utf8_encode json_loads argv0 exn_str
       with_suffix_html path_str open_error args w
  = ({| files := files w; stdout := stdout w;
        stderr := stderr w
                  ++ [(argv0 ++ ": "
                       ++ ("Conversion failed: " ++ exn_str (UnicodeDecodeError msg))
                       ++ NL)%string] |},
     Exits 1).
Proof.
  intros args w content msg Hf Hs Hu. unfold main.
  unfold pbind at 1. unfold is_file at 1. rewrite Hf. cbn [negb].
  unfold pbind at 1. unfold pret at 1.
  unfold try_except. unfold pbind at 1.
  rewrite is_valid_jsonlz4_file_eq, Hf, Hs.
  unfold pbind at 1. unfold pbind at 1.
  rewrite is_json_file_eq, Hf. unfold parsed. rewrite Hu.
  reflexivity.
Qed.

(** X18.  How [decompress_jsonlz4] ends once the payload has been
    decompressed: a payload that is not JSON ends the process with
    status 1 and the line JSON parsing error; a payload that is not
    UTF-8 raises [UnicodeDecodeError], which none of its handlers
    catches.  A file that cannot be opened ends the process with the
    line File reading error. *)
Theorem decompress_jsonlz4_outcomes : forall (filename : string) (w : world),
  (files w filename = None ->
     exists reason,
       decompress_jsonlz4 lz4_block_decompress utf8_decode json_loads argv0 filename w
       = ({| files := files w; stdout := stdout w;
             stderr := stderr w
                       ++ [(argv0 ++ ": " ++ ("File reading error: " ++ reason)
                            ++ NL)%string] |},
          Exits 1))
  /\ (forall content data text msg,
        files w filename = Some content ->
        lz4_block_decompress (skipn FIREFOX_LZ4_HEADER_SIZE content) DEFAULT_BUFFER_SIZE
        = inr data ->
        utf8_decode data = inr text -> json_loads text = inl msg ->
        decompress_jsonlz4 lz4_block_decompress utf8_decode json_loads argv0 filename w
        = ({| files := files w; stdout := stdout w;
              stderr := stderr w
                        ++ [(argv0 ++ ": " ++ ("JSON parsing error: " ++ msg) ++ NL)%string] |},
           Exits 1))
  /\ (forall content data msg,
        files w filename = Some content ->
        lz4_block_decompress (skipn FIREFOX_LZ4_HEADER_SIZE content) DEFAULT_BUFFER_SIZE
        = inr data ->
        utf8_decode data = inl msg ->
        decompress_jsonlz4 lz4_block_decompress utf8_decode json_loads argv0 filename w
        = (w, Raises (UnicodeDecodeError msg))).
Proof.
  intros filename w. rewrite decompress_jsonlz4_eq. unfold parsed.
  split; [intros ->; eexists; reflexivity |].
  split; [intros content data text msg -> -> -> ->; reflexivity |].
  intros content data msg -> -> ->. reflexivity.
Qed.

Lemma ele_pret (A : Type) (a : A) : exits_like_err argv0 (pret a).
Proof. intros w. reflexivity. Qed.

Lemma ele_raises (A : Type) (e : exn) :
  exits_like_err argv0 (fun w => (w, @Raises A e)).
Proof. intros w. reflexivity. Qed.

Lemma ele_err (A : Type) (message : string) : exits_like_err argv0 (@err argv0 A message).
Proof. intros w. cbn. split; [reflexivity | exists message; reflexivity]. Qed.

Lemma ele_print (s : string) : exits_like_err argv0 (print s).
Proof. intros w. reflexivity. Qed.

Lemma ele_is_file (p : string) : exits_like_err argv0 (is_file p).
Proof. intros w. reflexivity. Qed.

Lemma ele_read_bytes (f : string) (offset : nat) (size : option nat) :
  exits_like_err argv0 (read_bytes f offset size).
Proof. intros w. unfold read_bytes. destruct (files w f); reflexivity. Qed.

Lemma ele_pbind (A B : Type) (m : P A) (k : A -> P B) :
  exits_like_err argv0 m -> (forall a, exits_like_err argv0 (k a)) ->
  exits_like_err argv0 (pbind m k).
Proof.
  intros Hm Hk w. unfold pbind. specialize (Hm w).
  destruct (m w) as [w1 [a | e | c]]; [| exact Hm | exact Hm].
  specialize (Hk a w1). destruct (k a w1) as [w2 [b | e | c]];
    rewrite <- Hm; exact Hk.
Qed.

Lemma ele_try_except (A : Type) (body : P A) (handler : exn -> P A) :
  exits_like_err argv0 body -> (forall e, exits_like_err argv0 (handler e)) ->
  exits_like_err argv0 (try_except body handler).
Proof.
  intros Hb Hh w. unfold try_except. specialize (Hb w).
  destruct (body w) as [w1 [a | e | c]]; [exact Hb | | exact Hb].
  specialize (Hh e w1). destruct (handler e w1) as [w2 [b | e' | c]];
    rewrite <- Hb; exact Hh.
Qed.

Lemma ele_json_load (f : string) :
  exits_like_err argv0 (json_load utf8_decode json_loads f).
Proof.
  unfold json_load. apply ele_pbind; [apply ele_read_bytes |]. intros raw.
  destruct (utf8_decode raw); [apply ele_raises |].
  destruct (json_loads s); [apply ele_raises | apply ele_pret].
Qed.

Lemma ele_is_valid_jsonlz4_file (f : string) :
  exits_like_err argv0 (is_valid_jsonlz4_file f).
Proof.
  unfold is_valid_jsonlz4_file. apply ele_pbind; [apply ele_is_file |]. intros b.
  destruct (negb b); [apply ele_pret |].
  apply ele_try_except.
  - apply ele_pbind; [apply ele_read_bytes | intros; apply ele_pret].
  - intros e. destruct e; try apply ele_raises. apply ele_pret.
Qed.

Lemma ele_is_json_file (f : string) :
  exits_like_err argv0 (is_json_file utf8_decode json_loads f).
Proof.
  unfold is_json_file. apply ele_pbind; [apply ele_is_file |]. intros b.
  destruct (negb b); [apply ele_pret |].
  apply ele_try_except.
  - apply ele_pbind; [apply ele_json_load | intros; apply ele_pret].
  - intros e. destruct e; try apply ele_raises; apply ele_pret.
Qed.

Lemma ele_decompress_jsonlz4 (f : string) :
  exits_like_err argv0
    (decompress_jsonlz4 lz4_block_decompress utf8_decode json_loads argv0 f).
Proof.
  unfold decompress_jsonlz4. apply ele_try_except.
  - apply ele_pbind; [apply ele_read_bytes |]. intros data.
    destruct (lz4_block_decompress data DEFAULT_BUFFER_SIZE); [apply ele_raises |].
    destruct (utf8_decode l); [apply ele_raises |].
    destruct (json_loads s); [apply ele_raises | apply ele_pret].
  - intros e. destruct e; try apply ele_raises; apply ele_err.
Qed.

Lemma ele_load_json_file (f : string) :
  exits_like_err argv0 (load_json_file utf8_decode json_loads argv0 f).
Proof.
  unfold load_json_file. apply ele_try_except; [apply ele_json_load |].
  intros e. destruct e; try apply ele_raises; apply ele_err.
Qed.

Lemma ele_write_html_file (out : string) (v : json) :
  exits_like_err argv0 (write_html_file utf8_encode open_error out v).
Proof.
  intros w. unfold write_html_file.
  destruct (open_error out) as [msg |]; [reflexivity |].
  destruct (convert_bookmarks_to_html v 0) as [chunks [[] | e]]; reflexivity.
Qed.

Lemma elm_pbind (A B : Type) (m : P A) (k : A -> P B) :
  ends_like_main argv0 m -> (forall a, ends_like_main argv0 (k a)) ->
  ends_like_main argv0 (pbind m k).
Proof.
  intros Hm Hk w. unfold pbind. specialize (Hm w).
  destruct (m w) as [w1 [a | e | c]]; [| exact Hm | exact Hm].
  specialize (Hk a w1). destruct (k a w1) as [w2 [b | e | c]];
    try rewrite <- Hm; exact Hk.
Qed.

Lemma elm_caught (A : Type) (body : P A) (message : exn -> string) :
  exits_like_err argv0 body ->
  ends_like_main argv0 (try_except body (fun e => err argv0 (message e))).
Proof.
  intros Hb w. unfold try_except. specialize (Hb w).
  destruct (body w) as [w1 [a | e | c]]; [exact Hb | | exact Hb].
  cbn. rewrite Hb. split; [reflexivity | eexists; reflexivity].
Qed.

Lemma elm_err (A : Type) (message : string) :
  ends_like_main argv0 (@err argv0 A message).
Proof. intros w. cbn. split; [reflexivity | exists message; reflexivity]. Qed.

Lemma elm_pret (A : Type) (a : A) : ends_like_main argv0 (pret a).
Proof. intros w. reflexivity. Qed.

(** X19.  However [main] ends, whatever the files hold and whether or
    not the output file can be opened, it ends in one of two ways.  It
    returns normally, and then it has written nothing to the error
    stream.  Or it exits, always with status 1, after exactly one more
    line on the error stream, which starts with the name of the program
    and a colon.  No exception leaves [main], neither one that the
    loaders or the walk raise nor the [OSError] of an output file that
    cannot be opened. *)
Theorem main_returns_or_exits_with_1 : forall (args : arguments) (w : world),
  match main lz4_block_decompress utf8_decode utf8_encode json_loads argv0 exn_str
             with_suffix_html path_str open_error args w with
  | (w', Returns _) => stderr w' = stderr w
  | (w', Raises _) => False
  | (w', Exits code) =>
      code = 1
      /\ exists message,
           stderr w' = stderr w ++ [(argv0 ++ ": " ++ message ++ NL)%string]
  end.
Proof.
  intros args.
  change (ends_like_main argv0
            (main lz4_block_decompress utf8_decode utf8_encode json_loads argv0
                  exn_str with_suffix_html path_str open_error args)).
  unfold main.
  apply elm_pbind; [intros w; reflexivity |]. intros b.
  apply elm_pbind.
  - destruct (negb b); [apply elm_err | apply elm_pret].
  - intros _. apply elm_caught.
    apply ele_pbind; [apply ele_is_valid_jsonlz4_file |]. intros lz4.
    apply ele_pbind.
    + destruct lz4.
      * apply ele_pbind; [apply ele_print | intros; apply ele_decompress_jsonlz4].
      * apply ele_pbind; [apply ele_is_json_file |]. intros js.
        destruct js; [| apply ele_err].
        apply ele_pbind; [apply ele_print | intros; apply ele_load_json_file].
    + intros v. apply ele_pbind; [apply ele_print |]. intros _.
      apply ele_pbind; [apply ele_write_html_file | intros; apply ele_print].
Qed.

End Endings.

(* ================================================================== *)
(** ** The further properties at sample inputs *)
(* ================================================================== *)

Lemma json_test_then_load_witness :
  is_json_file bytes_as_text sample_loads "b.json" plain_world
  = (plain_world, Returns true)
  /\ exists content text v,
       files plain_world "b.json" = Some content
       /\ bytes_as_text content = inr text
       /\ sample_loads text = inr v
       /\ load_json_file bytes_as_text sample_loads "ff_bookmarks.py" "b.json" plain_world
          = (plain_world, Returns v).
Proof.
  split; [reflexivity |].
  apply (json_test_then_load bytes_as_text sample_loads "ff_bookmarks.py"
           "b.json" plain_world plain_world eq_refl).
Defined.

Lemma json_file_is_converted_witness :
  convert_bookmarks_to_html sample_tree 0
  = (fst (convert_bookmarks_to_html sample_tree 0), Ok tt)
  /\ opens_all "b.html" = None
  /\ exists w',
       main stored_lz4 bytes_as_text as_bytes sample_loads "ff_bookmarks.py" show_exn
            html_suffix as_written opens_all (args_for "b.json") plain_world
       = (w', Returns tt)
       /\ files w' "b.html"
          = Some (as_bytes (file_text (fst (convert_bookmarks_to_html sample_tree 0))))
       /\ stderr w' = stderr plain_world
       /\ stdout w'
          = stdout plain_world
            ++ [(("Processing JSON bookmark file: " ++ "b.json") ++ NL)%string;
                ("Converting bookmarks to HTML format..." ++ NL)%string;
                (("Successfully converted bookmarks to: " ++ "b.html") ++ NL)%string].
Proof.
  split; [vm_compute; reflexivity |]. split; [reflexivity |].
  apply (json_file_is_converted stored_lz4 bytes_as_text as_bytes sample_loads
           "ff_bookmarks.py" show_exn html_suffix as_written opens_all
           (args_for "b.json") plain_world
           (as_bytes "sample") "sample" sample_tree
           (fst (convert_bookmarks_to_html sample_tree 0)) "b.html"
           eq_refl eq_refl eq_refl eq_refl).
  - vm_compute; reflexivity.
  - reflexivity.
  - reflexivity.
Defined.

Lemma container_is_converted_witness :
  firstn 6 (as_bytes "mozLz40.....sample") = FIREFOX_LZ4_SIGNATURE
  /\ output_path_of html_suffix as_written (args_for "b.jsonlz4") = "b.html"
  /\ exists w',
       main stored_lz4 bytes_as_text as_bytes sample_loads "ff_bookmarks.py" show_exn
            html_suffix as_written opens_all (args_for "b.jsonlz4") plain_world
       = (w', Returns tt)
       /\ files w' (output_path_of html_suffix as_written (args_for "b.jsonlz4"))
          = Some (as_bytes (file_text (fst (convert_bookmarks_to_html sample_tree 0))))
       /\ stderr w' = stderr plain_world
       /\ stdout w'
          = stdout plain_world
            ++ [(("Processing Firefox jsonlz4 bookmark backup: " ++ "b.jsonlz4")
                 ++ NL)%string;
                ("Converting bookmarks to HTML format..." ++ NL)%string;
                (("Successfully converted bookmarks to: "
                  ++ output_path_of html_suffix as_written (args_for "b.jsonlz4"))
                 ++ NL)%string].
Proof.
  split; [reflexivity |]. split; [reflexivity |].
  apply (container_is_converted stored_lz4 bytes_as_text as_bytes sample_loads
           "ff_bookmarks.py" show_exn html_suffix as_written opens_all
           (args_for "b.jsonlz4") plain_world
           (as_bytes "mozLz40.....sample") (as_bytes "sample") "sample" sample_tree
           (fst (convert_bookmarks_to_html sample_tree 0))
           eq_refl eq_refl eq_refl eq_refl eq_refl).
  - vm_compute; reflexivity.
  - reflexivity.
Defined.

Lemma failed_walk_leaves_partial_output_witness :
  convert_bookmarks_to_html broken_tree 0
  = ([(header "T" ++ NL)%string;
      ("    <DT><A HREF=" ++ DQ ++ "http://a" ++ DQ ++ ">http://a</A>" ++ NL)%string],
     Raise AttributeError)
  /\ output_path_of html_suffix as_written (args_for "broken.json") = "broken.html"
  /\ exists w',
       main stored_lz4 bytes_as_text as_bytes sample_loads "ff_bookmarks.py" show_exn
            html_suffix as_written opens_all (args_for "broken.json") plain_world
       = (w', Exits 1)
       /\ files w' (output_path_of html_suffix as_written (args_for "broken.json"))
          = Some (as_bytes
                    (file_text
                       [(header "T" ++ NL)%string;
                        ("    <DT><A HREF=" ++ DQ ++ "http://a" ++ DQ ++ ">http://a</A>"
                         ++ NL)%string]))
       /\ stderr w'
          = stderr plain_world
            ++ [("ff_bookmarks.py" ++ ": "
                 ++ ("Conversion failed: " ++ show_exn AttributeError) ++ NL)%string]
       /\ stdout w'
          = stdout plain_world
            ++ [(("Processing JSON bookmark file: " ++ "broken.json") ++ NL)%string;
                ("Converting bookmarks to HTML format..." ++ NL)%string].
Proof.
  split; [reflexivity |]. split; [reflexivity |].
  apply (failed_walk_leaves_partial_output stored_lz4 bytes_as_text as_bytes sample_loads
           "ff_bookmarks.py" show_exn html_suffix as_written opens_all
           (args_for "broken.json") plain_world
           (as_bytes "broken") "broken" broken_tree
           [(header "T" ++ NL)%string;
            ("    <DT><A HREF=" ++ DQ ++ "http://a" ++ DQ ++ ">http://a</A>" ++ NL)%string]
           AttributeError
           eq_refl eq_refl eq_refl eq_refl eq_refl eq_refl).
Defined.

Lemma top_level_must_be_an_object_witness :
  sample_loads "[]" = inr (JList [])
  /\ output_path_of html_suffix as_written (args_for "list.json") = "list.html"
  /\ exists w',
       main stored_lz4 bytes_as_text as_bytes sample_loads "ff_bookmarks.py" show_exn
            html_suffix as_written opens_all (args_for "list.json") plain_world
       = (w', Exits 1)
       /\ files w' (output_path_of html_suffix as_written (args_for "list.json"))
          = Some (as_bytes EmptyString)
       /\ stderr w'
          = stderr plain_world
            ++ [("ff_bookmarks.py" ++ ": "
                 ++ ("Conversion failed: " ++ show_exn AttributeError) ++ NL)%string].
Proof.
  split; [reflexivity |]. split; [reflexivity |].
  apply (top_level_must_be_an_object stored_lz4 bytes_as_text as_bytes sample_loads
           "ff_bookmarks.py" show_exn html_suffix as_written opens_all
           (args_for "list.json") plain_world
           (as_bytes "[]") "[]" (JList []) eq_refl eq_refl eq_refl eq_refl).
  - intros d. discriminate.
  - reflexivity.
Defined.

Lemma unwritable_output_fails_the_conversion_witness :
  b_html_refused (output_path_of html_suffix as_written (args_for "b.json"))
  = Some "[Errno 13] Permission denied: 'b.html'"
  /\ main stored_lz4 bytes_as_text as_bytes sample_loads "ff_bookmarks.py" show_exn
          html_suffix as_written b_html_refused (args_for "b.json") plain_world
     = ({| files := files plain_world;
           stdout := [(("Processing JSON bookmark file: " ++ "b.json") ++ NL)%string;
                      ("Converting bookmarks to HTML format..." ++ NL)%string];
           stderr := [("ff_bookmarks.py" ++ ": "
                       ++ ("Conversion failed: "
                           ++ "[Errno 13] Permission denied: 'b.html'") ++ NL)%string] |},
        Exits 1).
Proof.
  split; [reflexivity |].
  apply (unwritable_output_fails_the_conversion stored_lz4 bytes_as_text as_bytes
           sample_loads "ff_bookmarks.py" show_exn html_suffix as_written b_html_refused
           (args_for "b.json") plain_world
           (as_bytes "sample") "sample" sample_tree
           "[Errno 13] Permission denied: 'b.html'"
           eq_refl eq_refl eq_refl eq_refl eq_refl).
Defined.

Lemma missing_input_exits_witness :
  files plain_world "nowhere.json" = None
  /\ snd (main stored_lz4 bytes_as_text as_bytes sample_loads "ff_bookmarks.py" show_exn
               html_suffix as_written opens_all (args_for "nowhere.json") plain_world)
     = Exits 1.
Proof.
  split; [reflexivity |].
  rewrite (missing_input_exits stored_lz4 bytes_as_text as_bytes sample_loads
             "ff_bookmarks.py" show_exn html_suffix as_written opens_all (args_for "nowhere.json")
             plain_world eq_refl).
  reflexivity.
Defined.

Lemma unrecognized_file_exits_witness :
  sample_loads "junk" = inl "Expecting value"
  /\ snd (main stored_lz4 bytes_as_text as_bytes sample_loads "ff_bookmarks.py" show_exn
               html_suffix as_written opens_all (args_for "junk.txt") plain_world)
     = Exits 1.
Proof.
  split; [reflexivity |].
  rewrite (unrecognized_file_exits stored_lz4 bytes_as_text as_bytes sample_loads
             "ff_bookmarks.py" show_exn html_suffix as_written opens_all (args_for "junk.txt") plain_world
             (as_bytes "junk") "junk" "Expecting value"
             eq_refl eq_refl eq_refl eq_refl).
  reflexivity.
Defined.

Lemma undecodable_file_fails_the_conversion_witness :
  no_utf8 (as_bytes "junk") = inl "invalid start byte"
  /\ snd (main stored_lz4 no_utf8 as_bytes sample_loads "ff_bookmarks.py" show_exn
               html_suffix as_written opens_all (args_for "junk.txt") plain_world)
     = Exits 1.
Proof.
  split; [reflexivity |].
  rewrite (undecodable_file_fails_the_conversion stored_lz4 no_utf8 as_bytes sample_loads
             "ff_bookmarks.py" show_exn html_suffix as_written opens_all (args_for "junk.txt") plain_world
             (as_bytes "junk") "invalid start byte" eq_refl eq_refl eq_refl).
  reflexivity.
Defined.

(* ================================================================== *)
(** ** Further properties: folder headings and short containers *)
(* ================================================================== *)

(** X20.  The heading [write_folder] writes: the escaped title
    between the tags, after the date attributes; and an empty heading,
    not the fallback of the root, when the folder has no [title] entry.
    The opening list line follows at the same indentation. *)
Theorem folder_heading_text :
  forall (d : dict) (attrs : string) (indent : nat),
  format_date_attributes d = Ok attrs ->
  (lookup d "title" = None ->
     write_folder d indent
     = ([(repeat_char " " (INDENT_SIZE * indent)
          ++ ("<DT><H3" ++ attrs ++ ">" ++ "</H3>") ++ NL)%string;
         (repeat_char " " (INDENT_SIZE * indent) ++ "<DL><p>" ++ NL)%string], Ok tt))
  /\ (forall t, lookup d "title" = Some (JStr t) ->
        write_folder d indent
        = ([(repeat_char " " (INDENT_SIZE * indent)
             ++ ("<DT><H3" ++ attrs ++ ">" ++ escape_each t ++ "</H3>") ++ NL)%string;
            (repeat_char " " (INDENT_SIZE * indent) ++ "<DL><p>" ++ NL)%string], Ok tt)).
Proof.
  intros d attrs indent Ha.
  assert (E : forall t,
             html_escape (dict_get_default d "title" (JStr EmptyString)) = Ok t ->
             write_folder d indent
             = ([(repeat_char " " (INDENT_SIZE * indent)
                  ++ ("<DT><H3" ++ attrs ++ ">" ++ t ++ "</H3>") ++ NL)%string;
                 (repeat_char " " (INDENT_SIZE * indent) ++ "<DL><p>" ++ NL)%string],
                Ok tt)).
  { intros t Ht. unfold write_folder. rewrite Ht, bind_lift, Ha, bind_lift.
    reflexivity. }
  unfold dict_get_default in E. split.
  - intros Hn. rewrite Hn in E. apply (E EmptyString). reflexivity.
  - intros t Ht. rewrite Ht in E. apply E. apply html_escape_str.
Qed.

Lemma folder_heading_text_witness :
  write_folder [("children", JList [])] 2
  = ([("        <DT><H3></H3>" ++ NL)%string; ("        <DL><p>" ++ NL)%string], Ok tt).
Proof.
  apply (proj1 (folder_heading_text [("children", JList [])] EmptyString 2 eq_refl)).
  reflexivity.
Defined.

(** X21.  A file that is no longer than the 12-byte header gives the
    decompressor the empty stream: seeking past the end and reading is
    no error. *)
Theorem short_container_has_an_empty_stream :
  forall (filename : string) (w : world) (content : list Byte.byte),
  files w filename = Some content ->
  (List.length content <= FIREFOX_LZ4_HEADER_SIZE)%nat ->
  compressed_data_of filename w = (w, Returns []).
Proof.
  intros filename w content Hf Hl.
  unfold compressed_data_of, read_bytes. rewrite Hf, (skipn_all2 content Hl).
  reflexivity.
Qed.

Lemma short_container_has_an_empty_stream_witness :
  compressed_data_of "junk.txt" plain_world = (plain_world, Returns []).
Proof.
  apply (short_container_has_an_empty_stream "junk.txt" plain_world (as_bytes "junk")
           eq_refl).
  vm_compute. lia.
Defined.

(* ================================================================== *)
(** ** Further properties: the date attributes *)
(* ================================================================== *)

Lemma string_app_empty_r (s : string) : (s ++ "")%string = s.
Proof. induction s as [| c r IH]; [reflexivity |]. cbn. rewrite IH. reflexivity. Qed.

Lemma only_digits_of_uint (d : Decimal.uint) :
  only_digits (NilEmpty.string_of_uint d) = true.
Proof. induction d; cbn; auto. Qed.

Lemma only_digits_no_special (s : string) :
  only_digits s = true -> has_special s = false.
Proof.
  induction s as [| c r IH]; [reflexivity |].
  cbn [only_digits has_special].
  destruct (digit_value c) eqn:E; [| discriminate].
  intros H. rewrite (IH H), orb_false_r.
  unfold digit_value in E. unfold special.
  destruct c as [[] [] [] [] [] [] [] []]; try discriminate E; reflexivity.
Qed.

Lemma number_text_str (n : Z) : number_text (str n) = true.
Proof.
  unfold str, NilZero.string_of_int, NilZero.string_of_uint.
  destruct n as [| p | p]; cbn [Z.to_int].
  - reflexivity.
  - pose proof (only_digits_of_uint (Pos.to_uint p)) as H.
    destruct (Pos.to_uint p); try reflexivity; cbn in H |- *; exact H.
  - pose proof (only_digits_of_uint (Pos.to_uint p)) as H.
    destruct (Pos.to_uint p); try reflexivity; cbn in H |- *; exact H.
Qed.

Lemma number_text_no_special (s : string) :
  number_text s = true -> has_special s = false.
Proof.
  destruct s as [| c r]; [reflexivity |].
  unfold number_text. destruct (Ascii.eqb c "-") eqn:E.
  - apply Ascii.eqb_eq in E. subst c. intros H.
    cbn [has_special]. rewrite (only_digits_no_special r H). reflexivity.
  - apply only_digits_no_special.
Qed.

Lemma timestamp_is_number (v : json) (s : string) :
  convert_firefox_timestamp v = Ok s -> number_text s = true.
Proof.
  unfold convert_firefox_timestamp.
  destruct (truthy v); [| intros [= <-]; reflexivity].
  destruct (int v) as [n | e]; cbn [rbind].
  - destruct (truediv n 1000000) as [q | e]; cbn [rbind].
    + destruct (floor q) as [k | e]; cbn [rbind].
      * intros [= <-]. apply number_text_str.
      * destruct (is_ValueError_or_TypeError e); [intros [= <-]; reflexivity | discriminate].
    + destruct (is_ValueError_or_TypeError e); [intros [= <-]; reflexivity | discriminate].
  - destruct (is_ValueError_or_TypeError e); [intros [= <-]; reflexivity | discriminate].
Qed.

(** X22.  The date attributes are not escaped and need no escaping.
    Whatever the node holds under [dateAdded] and [lastModified], when
    [format_date_attributes] returns, its text is the [ADD_DATE]
    attribute, if any, and then the [LAST_MODIFIED] attribute, if any,
    and the value between the quotes of each is a decimal number: digits
    after an optional minus sign, none of the characters [html_escape]
    replaces. *)
Theorem date_attributes_are_numbers :
  forall (d : dict) (attrs : string),
  format_date_attributes d = Ok attrs ->
  exists added modified : string,
    attrs = (date_attribute " ADD_DATE=" added
             ++ date_attribute " LAST_MODIFIED=" modified)%string
    /\ number_text added = true /\ has_special added = false
    /\ number_text modified = true /\ has_special modified = false.
Proof.
  intros d attrs. unfold format_date_attributes.
  assert (E : forall (name key : string) (r : result (list string)),
            r = (if dict_contains d key then
                   rbind (convert_firefox_timestamp (dict_get d key)) (fun t =>
                   Ok (if truthy (JStr t) then [(name ++ DQ ++ t ++ DQ)%string] else []))
                 else Ok []) ->
            forall l, r = Ok l ->
            exists t, l = (if String.eqb t "" then [] else [(name ++ DQ ++ t ++ DQ)%string])
                      /\ number_text t = true).
  { intros name key r -> l.
    destruct (dict_contains d key).
    - destruct (convert_firefox_timestamp (dict_get d key)) as [t |] eqn:Ht;
        cbn [rbind]; [| discriminate].
      intros [= <-]. exists t. split; [| apply (timestamp_is_number _ _ Ht)].
      cbn [truthy]. destruct (String.eqb t ""); reflexivity.
    - intros [= <-]. exists EmptyString. split; reflexivity. }
  pose proof (E " ADD_DATE=" "dateAdded" _ eq_refl) as E1.
  pose proof (E " LAST_MODIFIED=" "lastModified" _ eq_refl) as E2.
  destruct (if dict_contains d "dateAdded" then _ else _) as [l1 |]; cbn [rbind];
    [| discriminate].
  destruct (if dict_contains d "lastModified" then _ else _) as [l2 |]; cbn [rbind];
    [| discriminate].
  destruct (E1 l1 eq_refl) as (a & -> & Ha).
  destruct (E2 l2 eq_refl) as (m & -> & Hm).
  intros [= <-]. exists a, m.
  split; [| auto using number_text_no_special].
  unfold date_attribute.
  destruct (String.eqb a ""), (String.eqb m ""); cbn [app String.concat];
    rewrite ?string_app_empty_r; reflexivity.
Qed.

Lemma date_attributes_are_numbers_witness :
  exists added modified : string,
    (" ADD_DATE=" ++ DQ ++ "1700000000" ++ DQ)%string
    = (date_attribute " ADD_DATE=" added
       ++ date_attribute " LAST_MODIFIED=" modified)%string
    /\ number_text added = true /\ has_special added = false
    /\ number_text modified = true /\ has_special modified = false.
Proof.
  apply (date_attributes_are_numbers dated_node).
  vm_compute. reflexivity.
Defined.

(* ================================================================== *)
(** ** C9 and C10: folders and bookmarks *)
(* ================================================================== *)

Lemma folder_body (cs : list json) (indent : nat) (wc : list string) (rc : result unit) :
  convert_children cs indent = (wc, rc) ->
  (convert_children cs indent ;; write_indented indent "</DL><p>")
  = (wc ++ closing_after indent rc, rc).
Proof.
  intros ->. destruct rc as [[] | e]; cbn [bind closing_after].
  - rewrite write_indented_chunk. reflexivity.
  - rewrite app_nil_r. reflexivity.
Qed.

(** Against C9 as worded.  A node with a list-valued [children] and a
    [uri] whose title is a number emits no folder heading and no nested
    list: escaping the title raises before anything is written. *)
Lemma folder_with_number_title_writes_nothing :
  dict_get numbered_folder "children" = JList []
  /\ dict_get numbered_folder "uri" = JStr "http://a"
  /\ convert_bookmarks_to_html (JDict numbered_folder) 1 = ([], Raise AttributeError).
Proof. repeat split; reflexivity. Qed.

(** C9, amended.  A node whose [children] is a list is a folder,
    whatever its [uri] entry: no chunk of its walk is an anchor line at
    the depth of the node.  When its title can be escaped (a text, or
    absent) and, below the root, its dates convert, the walk writes the
    folder's opening (at depth 0 the document header with the title in
    its [<H1>], below the root the heading and the opening list line),
    then what the loop over its children writes, then the closing list
    line unless that loop raised.  When the title cannot be escaped or,
    below the root, a date raises, the walk writes nothing and raises. *)
Theorem folder_wins_over_uri :
  forall (d : dict) (cs : list json) (indent : nat)
         (wc : list string) (rc : result unit),
  dict_get d "children" = JList cs ->
  convert_children cs indent = (wc, rc) ->
  Forall (fun c => is_anchor_at indent c = false)
         (fst (convert_bookmarks_to_html (JDict d) indent))
  /\ (forall t, indent = 0%nat ->
        html_escape (dict_get_default d "title" (JStr "Bookmarks Menu")) = Ok t ->
        convert_bookmarks_to_html (JDict d) indent
        = ((header t ++ NL)%string :: wc ++ closing_after indent rc, rc))
  /\ (forall t a, (0 < indent)%nat ->
        html_escape (dict_get_default d "title" (JStr EmptyString)) = Ok t ->
        format_date_attributes d = Ok a ->
        convert_bookmarks_to_html (JDict d) indent
        = ((repeat_char " " (INDENT_SIZE * indent)
            ++ ("<DT><H3" ++ a ++ ">" ++ t ++ "</H3>") ++ NL)%string
           :: (repeat_char " " (INDENT_SIZE * indent) ++ "<DL><p>" ++ NL)%string
           :: wc ++ closing_after indent rc, rc))
  /\ (forall e,
        (indent = 0%nat
         /\ html_escape (dict_get_default d "title" (JStr "Bookmarks Menu")) = Raise e)
        \/ ((0 < indent)%nat
            /\ html_escape (dict_get_default d "title" (JStr EmptyString)) = Raise e)
        \/ ((0 < indent)%nat
            /\ (exists t, html_escape (dict_get_default d "title" (JStr EmptyString)) = Ok t)
            /\ format_date_attributes d = Raise e) ->
        convert_bookmarks_to_html (JDict d) indent = ([], Raise e)).
Proof.
  intros d cs indent wc rc Hcs Hwc.
  assert (E : convert_bookmarks_to_html (JDict d) indent
              = (open_folder d indent ;;
                 convert_children cs indent ;;
                 write_indented indent "</DL><p>"))
    by (rewrite convert_dict, Hcs; reflexivity).
  rewrite E, (folder_body cs indent wc rc Hwc).
  split; [| split; [| split]].
  - rewrite <- (folder_body cs indent wc rc Hwc).
    apply Forall_fst_bind; [apply not_anchor_at_open_folder |]. intros _.
    apply Forall_fst_bind; [apply not_anchor_at_children |]. intros _.
    apply not_anchor_at_write_indented. reflexivity.
  - intros t -> Ht. rewrite (open_folder_header d t Ht). reflexivity.
  - intros t a Hi Ht Ha. rewrite (open_folder_heading d indent t a Hi Ht Ha).
    reflexivity.
  - intros e [[-> He] | [[Hi He] | [Hi [[t Ht] He]]]].
    + unfold open_folder, write_html_header. cbn [Nat.eqb].
      rewrite He, bind_lift. reflexivity.
    + unfold open_folder, write_folder. destruct indent as [| n]; [lia |].
      cbn [Nat.eqb]. rewrite He, bind_lift. reflexivity.
    + unfold open_folder, write_folder. destruct indent as [| n]; [lia |].
      cbn [Nat.eqb]. rewrite Ht, bind_lift, He, bind_lift. reflexivity.
Qed.

Lemma folder_wins_over_uri_witness :
  dict_get docs_folder "uri" = JStr "http://a"
  /\ convert_bookmarks_to_html (JDict docs_folder) 1
     = ([("    <DT><H3>Docs</H3>" ++ NL)%string;
         ("    <DL><p>" ++ NL)%string;
         ("        <DT><A HREF=" ++ DQ ++ "http://b" ++ DQ ++ ">B</A>" ++ NL)%string;
         ("    </DL><p>" ++ NL)%string],
        Ok tt).
Proof.
  split; [reflexivity |].
  apply (proj1 (proj2 (proj2
           (folder_wins_over_uri docs_folder
              [JDict [("title", JStr "B"); ("uri", JStr "http://b")]] 1
              [("        <DT><A HREF=" ++ DQ ++ "http://b" ++ DQ ++ ">B</A>" ++ NL)%string]
              (Ok tt) eq_refl eq_refl)))
           "Docs" EmptyString (Nat.lt_0_succ 0) eq_refl eq_refl).
Defined.

Lemma no_heading_in_bookmark (d : dict) (indent : nat) :
  Forall (fun c => is_heading c = false) (fst (write_bookmark d indent)).
Proof.
  assert (Hw : forall text, prefix "<DT><H3" (drop_spaces (text ++ NL)) = false ->
               Forall (fun c => is_heading c = false) (fst (write_indented indent text))).
  { intros text H. rewrite write_indented_chunk. constructor; [| constructor].
    unfold is_heading. rewrite drop_spaces_indent. exact H. }
  unfold write_bookmark.
  apply Forall_fst_lift. intros t. apply Forall_fst_lift. intros a.
  apply Forall_fst_lift. intros h.
  apply Forall_fst_bind; [apply Hw; reflexivity |]. intros _.
  destruct (dict_get d "annos"); try constructor.
  induction l as [| x l IH]; [constructor |].
  rewrite for_each_cons. apply Forall_fst_bind; [| intros _; exact IH].
  destruct x; try constructor.
  unfold write_description. destruct (eq_str _ _); [| constructor].
  apply Forall_fst_lift. intros t'. apply Hw. reflexivity.
Qed.

Lemma descriptions_are_lines (indent : nat) (annos : list json) :
  Forall (fun c => is_description_at indent c = true)
         (fst (for_each annos (write_description indent))).
Proof.
  induction annos as [| x annos IH]; [constructor |].
  rewrite for_each_cons. apply Forall_fst_bind; [| intros _; exact IH].
  destruct x; try constructor.
  unfold write_description. destruct (eq_str _ _); [| constructor].
  apply Forall_fst_lift. intros t. rewrite write_indented_chunk.
  constructor; [| constructor].
  unfold is_description_at. rewrite prefix_same.
  rewrite <- string_app_assoc. apply prefix_app.
Qed.

(** Against C10 as worded.  A node whose [children] is a number and
    that has a [uri] entry is not always rendered as an anchor: with a
    [uri] that is [None] it writes nothing; and with a title that is a
    number it writes nothing and raises. *)
Lemma node_with_uri_entry_writes_no_anchor :
  (dict_get null_uri_node "children" = JInt 5
   /\ dict_contains null_uri_node "uri" = true
   /\ convert_bookmarks_to_html (JDict null_uri_node) 0 = ([], Ok tt))
  /\ (dict_get numbered_bookmark "children" = JInt 5
      /\ dict_get numbered_bookmark "uri" = JStr "http://odd"
      /\ convert_bookmarks_to_html (JDict numbered_bookmark) 0
         = ([], Raise AttributeError)).
Proof. repeat split; reflexivity. Qed.

(** C10, amended.  A node whose [children] is not a list (absent,
    [None], or a value of another type) is no folder: its walk writes no
    header, no heading and no list line.  With a [uri] that is absent or
    [None] it writes nothing and ends normally.  With another [uri],
    when the title (by default the [uri]), the dates and the [uri] can
    be converted, it writes exactly the anchor line of the node at its
    depth, and after it only [<DD>] lines, none at all when [annos] is no
    list; when one of the three cannot be converted it writes nothing
    and raises. *)
Theorem non_list_children_is_no_folder :
  forall (d : dict) (indent : nat),
  is_list (dict_get d "children") = false ->
  Forall (fun c => is_heading c = false /\ opens_list c = false /\ closes_list c = false)
         (fst (convert_bookmarks_to_html (JDict d) indent))
  /\ (is_none (dict_get d "uri") = true ->
        convert_bookmarks_to_html (JDict d) indent = ([], Ok tt))
  /\ (forall (u : json) (t a h : string),
        lookup d "uri" = Some u -> is_none u = false ->
        html_escape (dict_get_default d "title" u) = Ok t ->
        format_date_attributes d = Ok a ->
        html_escape u = Ok h ->
        exists (rest : list string) (r : result unit),
          convert_bookmarks_to_html (JDict d) indent
          = ((repeat_char " " (INDENT_SIZE * indent)
              ++ ("<DT><A HREF=" ++ DQ ++ h ++ DQ ++ a ++ ">" ++ t ++ "</A>") ++ NL)%string
             :: rest, r)
          /\ Forall (fun c => is_description_at indent c = true) rest
          /\ (is_list (dict_get d "annos") = false -> rest = [] /\ r = Ok tt))
  /\ (forall (u : json) (e : exn),
        lookup d "uri" = Some u -> is_none u = false ->
        html_escape (dict_get_default d "title" u) = Raise e
        \/ ((exists t, html_escape (dict_get_default d "title" u) = Ok t)
            /\ format_date_attributes d = Raise e)
        \/ ((exists t, html_escape (dict_get_default d "title" u) = Ok t)
            /\ (exists a, format_date_attributes d = Ok a)
            /\ html_escape u = Raise e) ->
        convert_bookmarks_to_html (JDict d) indent = ([], Raise e)).
Proof.
  intros d indent Hc.
  assert (E : convert_bookmarks_to_html (JDict d) indent
              = if is_none (dict_get d "uri") then ret tt else write_bookmark d indent).
  { rewrite convert_dict. destruct (dict_get d "children"); try reflexivity.
    discriminate Hc. }
  assert (B : forall u, lookup d "uri" = Some u -> is_none u = false ->
              convert_bookmarks_to_html (JDict d) indent
              = (title <- lift (html_escape (dict_get_default d "title" u)) ;;
                 date_attrs <- lift (format_date_attributes d) ;;
                 href <- lift (html_escape u) ;;
                 write_indented indent
                   ("<DT><A HREF=" ++ DQ ++ href ++ DQ ++ date_attrs ++ ">" ++ title ++ "</A>") ;;
                 match dict_get d "annos" with
                 | JList annos => for_each annos (write_description indent)
                 | _ => ret tt
                 end)).
  { intros u Hu Hn. rewrite E. unfold write_bookmark, dict_get, dict_get_default.
    rewrite Hu, Hn. reflexivity. }
  split; [| split; [| split]].
  - rewrite E. destruct (is_none (dict_get d "uri")); [constructor |].
    destruct (no_list_tags_in_bookmark d indent) as [Ho Hcl].
    pose proof (no_heading_in_bookmark d indent) as Hh.
    apply Forall_forall. intros c Hin.
    rewrite Forall_forall in Ho, Hcl, Hh. auto.
  - intros Hu. rewrite E, Hu. reflexivity.
  - intros u t a h Hu Hn Ht Ha Hh. rewrite (B u Hu Hn).
    rewrite Ht, bind_lift, Ha, bind_lift, Hh, bind_lift, write_indented_chunk.
    pose proof (fun annos => descriptions_are_lines indent annos) as Hd.
    destruct (dict_get d "annos") as [| | | | | annos |];
      try (exists [], (Ok tt);
           split; [reflexivity | split; [constructor | intros _; split; reflexivity]]).
    specialize (Hd annos).
    destruct (for_each annos (write_description indent)) as [rest r].
    exists rest, r. split; [reflexivity |]. split; [exact Hd |].
    intros H. discriminate H.
  - intros u e Hu Hn H. rewrite (B u Hu Hn).
    destruct H as [He | [[[t Ht] He] | [[t Ht] [[a Ha] He]]]].
    + rewrite He, bind_lift. reflexivity.
    + rewrite Ht, bind_lift, He, bind_lift. reflexivity.
    + rewrite Ht, bind_lift, Ha, bind_lift, He, bind_lift. reflexivity.
Qed.

Lemma non_list_children_is_no_folder_witness :
  is_list (dict_get odd_bookmark "children") = false
  /\ exists (rest : list string) (r : result unit),
       convert_bookmarks_to_html (JDict odd_bookmark) 2
       = (("        <DT><A HREF=" ++ DQ ++ "http://odd" ++ DQ ++ ">Odd</A>" ++ NL)%string
          :: rest, r)
       /\ Forall (fun c => is_description_at 2 c = true) rest
       /\ (is_list (dict_get odd_bookmark "annos") = false -> rest = [] /\ r = Ok tt).
Proof.
  split; [reflexivity |].
  apply (proj1 (proj2 (proj2 (non_list_children_is_no_folder odd_bookmark 2 eq_refl)))
           (JStr "http://odd") "Odd" EmptyString "http://odd"
           eq_refl eq_refl eq_refl eq_refl eq_refl).
Defined.
